(** * Olodymyr knowledge nexus: the session / knowledge store and the chat
    submit handler

    A shallow embedding of the zustand store ([useAppStore]: sessions,
    the current-session reference, learning data), of the mock completion
    function [getChatCompletion] and of the chat input's [handleSubmit],
    followed by the properties of these operations.

    Conventions of the embedding.
    - A JS string is a [string] holding the UTF-8 encoding of the text,
      one byte per [ascii]; a character outside ASCII is two or three bytes
      of it.  [trim] strips every white space character of the language,
      in whichever number of bytes it is encoded.
    - A [Date] is its number of milliseconds since the epoch, a [Z].
    - [uuidv4()] and [new Date()] are effects: every store action receives
      the values it draws from them as explicit arguments.
    - [string | null] is [option string]; an absent optional field is
      [None]. *)

From Stdlib Require Import List String Ascii ZArith Bool Lia Arith.
Import ListNotations.
Open Scope string_scope.

(** ** Strings as the handler uses them *)

Module Js.

(** [toLowerCase] on one byte: the letters [A-Z] are lowered; the bytes of
    a character outside ASCII are left as they are. *)
Definition lowerChar (c : ascii) : ascii :=
  let n := nat_of_ascii c in
  if andb (Nat.leb 65 n) (Nat.leb n 90) then ascii_of_nat (n + 32) else c.

(** [s.toLowerCase()] on the letters [A-Z].  A learning phrase is found in
    this text exactly when it is found in the text lowered in full: the only
    characters outside ASCII whose lowering holds an ASCII letter are the
    Kelvin sign ([k]) and the dotted capital I ([i] and a combining dot), and
    neither can be part of an occurrence of a phrase.  For the greeting test
    of the completion mock the lowering is that of ASCII text. *)
Fixpoint toLowerCase (s : string) : string :=
  match s with
  | EmptyString => EmptyString
  | String c s' => String (lowerChar c) (toLowerCase s')
  end.

(** [s.startsWith(p)]. *)
Fixpoint startsWith (p s : string) : bool :=
  match p, s with
  | EmptyString, _ => true
  | String _ _, EmptyString => false
  | String a p', String b s' => if Ascii.eqb a b then startsWith p' s' else false
  end.

(** [s.includes(p)]: [p] occurs somewhere in [s]. *)
Fixpoint includes (p s : string) : bool :=
  match s with
  | EmptyString => startsWith p EmptyString
  | String _ s' => startsWith p s || includes p s'
  end.

(** White space, as [trim] sees it: the white space and line terminator
    characters of the language.  Those of one byte: tab, LF, VT, FF, CR,
    space. *)
Definition isWhiteSpace (c : ascii) : bool :=
  let n := nat_of_ascii c in
  andb (Nat.leb 9 n) (Nat.leb n 13) || Nat.eqb n 32.

(** The one of two bytes: the no-break space U+00A0 (C2 A0). *)
Definition isWhiteSpace2 (a b : ascii) : bool :=
  Nat.eqb (nat_of_ascii a) 194 && Nat.eqb (nat_of_ascii b) 160.

(** Those of three bytes: U+1680 (E1 9A 80), U+2000 to U+200A
    (E2 80 80 to E2 80 8A), the line and paragraph separators U+2028 and
    U+2029 (E2 80 A8, E2 80 A9), U+202F (E2 80 AF), U+205F (E2 81 9F),
    U+3000 (E3 80 80) and the byte order mark U+FEFF (EF BB BF). *)
Definition isWhiteSpace3 (a b c : ascii) : bool :=
  let x := nat_of_ascii a in
  let y := nat_of_ascii b in
  let z := nat_of_ascii c in
  Nat.eqb x 225 && Nat.eqb y 154 && Nat.eqb z 128
  || Nat.eqb x 226 && Nat.eqb y 128
     && (Nat.leb 128 z && Nat.leb z 138
         || Nat.eqb z 168 || Nat.eqb z 169 || Nat.eqb z 175)
  || Nat.eqb x 226 && Nat.eqb y 129 && Nat.eqb z 159
  || Nat.eqb x 227 && Nat.eqb y 128 && Nat.eqb z 128
  || Nat.eqb x 239 && Nat.eqb y 187 && Nat.eqb z 191.

(** [s.trimStart()]: the leading white space characters are dropped, of
    whichever length. *)
Fixpoint trimStart (s : string) : string :=
  match s with
  | EmptyString => EmptyString
  | String a s1 =>
      if isWhiteSpace a then trimStart s1
      else
        match s1 with
        | EmptyString => s
        | String b s2 =>
            if isWhiteSpace2 a b then trimStart s2
            else
              match s2 with
              | EmptyString => s
              | String c s3 => if isWhiteSpace3 a b c then trimStart s3 else s
              end
        end
  end.

(** [s.trimEnd()]: the text is cut where what follows is white space
    only. *)
Fixpoint trimEnd (s : string) : string :=
  match s with
  | EmptyString => EmptyString
  | String a s1 =>
      match trimStart s with
      | EmptyString => EmptyString
      | String _ _ => String a (trimEnd s1)
      end
  end.

(** [s.trim()]. *)
Definition trim (s : string) : string := trimEnd (trimStart s).

(** A string is truthy when it is not empty. *)
Definition truthy (s : string) : bool :=
  match s with EmptyString => false | String _ _ => true end.

(** One alternative of a case-insensitive pattern made of literal
    characters, tried at the head of [s]: the text left after the match. *)
Fixpoint matchLiteralCI (pat s : string) : option string :=
  match pat, s with
  | EmptyString, _ => Some s
  | String _ _, EmptyString => None
  | String a pat', String b s' =>
      if Ascii.eqb (lowerChar a) (lowerChar b) then matchLiteralCI pat' s' else None
  end.

(** The alternatives [a1|a2|...] tried in order at the head of [s]. *)
Fixpoint matchAltCI (alts : list string) (s : string) : option string :=
  match alts with
  | [] => None
  | a :: alts' =>
      match matchLiteralCI a s with
      | Some rest => Some rest
      | None => matchAltCI alts' s
      end
  end.

(** [s.replace(/a1|a2|.../i, '')]: without the [g] flag only the leftmost
    match is removed. *)
Fixpoint replaceFirstCI (alts : list string) (s : string) : string :=
  match matchAltCI alts s with
  | Some rest => rest
  | None =>
      match s with
      | EmptyString => EmptyString
      | String c s' => String c (replaceFirstCI alts s')
      end
  end.

(** The line feed of a template literal. *)
Definition nl : string := String (ascii_of_nat 10) EmptyString.

End Js.

(** ** The data model ([types/index.ts]) *)

Definition Date := Z.
Bind Scope Z_scope with Date.

Inductive Role : Type := user | assistant.

Module Message.
Record t : Type := mk
  { id : string; role : Role; content : string; timestamp : Date }.
End Message.

Module Session.
Record t : Type := mk
  { id : string;
    name : string;
    description : string;
    messages : list Message.t;
    createdAt : Date;
    updatedAt : Date }.
End Session.

Module LearningSession.
Record t : Type := mk
  { id : string;
    name : string;
    description : string;
    content : string;
    source : option string;
    createdAt : Date;
    updatedAt : Date }.
End LearningSession.

Inductive Theme : Type := light | dark | system.

Module UserSettings.
Record t : Type := mk
  { theme : Theme;
    preferredModel : string;
    useEmojis : bool;
    enableWebScraping : bool;
    enableFileUpload : bool }.
End UserSettings.

(** The data part of [AppState]. *)
Record AppState : Type := mkAppState
  { sessions : list Session.t;
    currentSessionId : option string;
    learningData : list LearningSession.t;
    isLoading : bool;
    userSettings : UserSettings.t }.

Definition initialState : AppState :=
  {| sessions := [];
     currentSessionId := None;
     learningData := [];
     isLoading := false;
     userSettings :=
       UserSettings.mk system "claude-haiku" true true true |}.


(** ** The store ([useAppStore]) *)

(** [session.id === ref] for a reference of type [string | null]. *)
Definition idIs (ref : option string) (sid : string) : bool :=
  match ref with
  | Some r => String.eqb sid r
  | None => false
  end.

(** [!ref]: the reference is [null] or the empty string. *)
Definition falsyRef (ref : option string) : bool :=
  match ref with
  | Some r => negb (Js.truthy r)
  | None => true
  end.

(** [x || null] for a string that may be undefined. *)
Definition orNull (x : option string) : option string :=
  match x with
  | Some r => if Js.truthy r then Some r else None
  | None => None
  end.

(** [sessions.find(s => s.id === ref)]. *)
Definition findSession (ref : option string) (l : list Session.t) : option Session.t :=
  find (fun s => idIs ref (Session.id s)) l.

(** What one call of a session action draws from [uuidv4()] and
    [new Date()]. *)
Record SessionEnv : Type := mkSessionEnv
  { uuidSession : string;
    uuidMessage : string;
    dateMessage : Date;
    dateCreated : Date;
    dateUpdated : Date }.

(** What [addLearningSession] draws from them. *)
Record LearningEnv : Type := mkLearningEnv
  { uuidLearning : string;
    learnCreated : Date;
    learnUpdated : Date }.

Definition setSessions (l : list Session.t) (st : AppState) : AppState :=
  {| sessions := l;
     currentSessionId := currentSessionId st;
     learningData := learningData st;
     isLoading := isLoading st;
     userSettings := userSettings st |}.

Definition setLearningData (l : list LearningSession.t) (st : AppState) : AppState :=
  {| sessions := sessions st;
     currentSessionId := currentSessionId st;
     learningData := l;
     isLoading := isLoading st;
     userSettings := userSettings st |}.

Definition createNewSession (e : SessionEnv) (name description : string)
  (st : AppState) : AppState :=
  {| sessions :=
       sessions st ++
       [Session.mk (uuidSession e) name description [] (dateCreated e) (dateUpdated e)];
     currentSessionId := Some (uuidSession e);
     learningData := learningData st;
     isLoading := isLoading st;
     userSettings := userSettings st |}.

Definition setCurrentSession (sessionId : string) (st : AppState) : AppState :=
  {| sessions := sessions st;
     currentSessionId := Some sessionId;
     learningData := learningData st;
     isLoading := isLoading st;
     userSettings := userSettings st |}.

Definition deleteSession (sessionId : string) (st : AppState) : AppState :=
  {| sessions :=
       filter (fun s => negb (String.eqb (Session.id s) sessionId)) (sessions st);
     currentSessionId :=
       if idIs (currentSessionId st) sessionId then
         if Nat.ltb 1 (List.length (sessions st)) then
           orNull
             (option_map Session.id
                (find (fun s => negb (String.eqb (Session.id s) sessionId))
                   (sessions st)))
         else None
       else currentSessionId st;
     learningData := learningData st;
     isLoading := isLoading st;
     userSettings := userSettings st |}.

Definition renameSession (now : Date) (sessionId name : string)
  (description : option string) (st : AppState) : AppState :=
  setSessions
    (map (fun s =>
            if String.eqb (Session.id s) sessionId then
              Session.mk (Session.id s) name
                (match orNull description with
                 | Some d => d
                 | None => Session.description s
                 end)
                (Session.messages s) (Session.createdAt s) now
            else s)
       (sessions st))
    st.

(** The message one call of [addMessage] builds. *)
Definition newMessage (e : SessionEnv) (content : string) (role : Role) : Message.t :=
  Message.mk (uuidMessage e) role content (dateMessage e).

(** The session [addMessage] starts when none is current. *)
Definition autoSession (e : SessionEnv) (content : string) (role : Role) : Session.t :=
  Session.mk (uuidSession e) "Nova conversa" "Conversa iniciada automaticamente"
    [newMessage e content role] (dateCreated e) (dateUpdated e).

(** [{ ...session, messages: [...session.messages, m], updatedAt: new Date() }]. *)
Definition withMessage (e : SessionEnv) (content : string) (role : Role)
  (s : Session.t) : Session.t :=
  Session.mk (Session.id s) (Session.name s) (Session.description s)
    (Session.messages s ++ [newMessage e content role])
    (Session.createdAt s) (dateUpdated e).

Definition addMessage (e : SessionEnv) (content : string) (role : Role)
  (st : AppState) : AppState :=
  if falsyRef (currentSessionId st) then
    {| sessions := autoSession e content role :: sessions st;
       currentSessionId := Some (uuidSession e);
       learningData := learningData st;
       isLoading := isLoading st;
       userSettings := userSettings st |}
  else
    setSessions
      (map (fun s =>
              if idIs (currentSessionId st) (Session.id s)
              then withMessage e content role s else s)
         (sessions st))
      st.

(** [{ ...session, messages: [], updatedAt: new Date() }]. *)
Definition cleared (now : Date) (s : Session.t) : Session.t :=
  Session.mk (Session.id s) (Session.name s) (Session.description s) []
    (Session.createdAt s) now.

Definition clearMessages (now : Date) (sessionId : string) (st : AppState) : AppState :=
  setSessions
    (map (fun s => if String.eqb (Session.id s) sessionId then cleared now s else s)
       (sessions st))
    st.

Definition addLearningSession (e : LearningEnv) (name content description : string)
  (source : option string) (st : AppState) : AppState :=
  setLearningData
    (learningData st ++
     [LearningSession.mk (uuidLearning e) name description content source
        (learnCreated e) (learnUpdated e)])
    st.

Definition deleteLearningSession (id : string) (st : AppState) : AppState :=
  setLearningData
    (filter (fun a => negb (String.eqb (LearningSession.id a) id)) (learningData st))
    st.

(** [Partial<Omit<LearningSession, 'id' | 'createdAt'>>]: a field that is
    present is [Some]. *)
Record LearningUpdates : Type := mkLearningUpdates
  { updName : option string;
    updDescription : option string;
    updContent : option string;
    updSource : option string;
    updUpdatedAt : option Date }.

Definition orElse {A : Type} (x : option A) (d : A) : A :=
  match x with Some v => v | None => d end.

(** [{ ...session, ...updates, updatedAt: new Date() }]. *)
Definition mergeLearning (now : Date) (u : LearningUpdates)
  (a : LearningSession.t) : LearningSession.t :=
  LearningSession.mk (LearningSession.id a)
    (orElse (updName u) (LearningSession.name a))
    (orElse (updDescription u) (LearningSession.description a))
    (orElse (updContent u) (LearningSession.content a))
    (match updSource u with
     | Some v => Some v
     | None => LearningSession.source a
     end)
    (LearningSession.createdAt a)
    now.

Definition updateLearningSession (now : Date) (id : string) (updates : LearningUpdates)
  (st : AppState) : AppState :=
  setLearningData
    (map (fun a =>
            if String.eqb (LearningSession.id a) id then mergeLearning now updates a
            else a)
       (learningData st))
    st.

Definition setLoading (b : bool) (st : AppState) : AppState :=
  {| sessions := sessions st;
     currentSessionId := currentSessionId st;
     learningData := learningData st;
     isLoading := b;
     userSettings := userSettings st |}.

(** [Partial<UserSettings>]. *)
Record SettingsUpdates : Type := mkSettingsUpdates
  { updTheme : option Theme;
    updPreferredModel : option string;
    updUseEmojis : option bool;
    updEnableWebScraping : option bool;
    updEnableFileUpload : option bool }.

Definition updateUserSettings (settings : SettingsUpdates) (st : AppState) : AppState :=
  {| sessions := sessions st;
     currentSessionId := currentSessionId st;
     learningData := learningData st;
     isLoading := isLoading st;
     userSettings :=
       UserSettings.mk
         (orElse (updTheme settings) (UserSettings.theme (userSettings st)))
         (orElse (updPreferredModel settings)
            (UserSettings.preferredModel (userSettings st)))
         (orElse (updUseEmojis settings) (UserSettings.useEmojis (userSettings st)))
         (orElse (updEnableWebScraping settings)
            (UserSettings.enableWebScraping (userSettings st)))
         (orElse (updEnableFileUpload settings)
            (UserSettings.enableFileUpload (userSettings st))) |}.


(** ** The completion function ([getChatCompletion]) *)

(** The methods an object literal inherits from [Object.prototype]; the
    [name] of each is its key. *)
Definition inheritedMethods : list string :=
  ["__defineGetter__"; "__defineSetter__"; "hasOwnProperty"; "__lookupGetter__";
   "__lookupSetter__"; "isPrototypeOf"; "propertyIsEnumerable"; "toString";
   "valueOf"; "toLocaleString"].

(** [`${MODELS[modelId].name}`].  [MODELS] is an object literal: besides
    its two keys, the lookup finds what the literal inherits, the
    constructor [Object], the prototype itself (which has no [name], so the
    template prints [undefined]) and the inherited methods.  Any other id
    has no entry, and reading its name throws. *)
Definition modelName (modelId : string) : option string :=
  if String.eqb modelId "claude-haiku" then Some "Claude Haiku"
  else if String.eqb modelId "mistral-small" then Some "Mistral Small"
  else if String.eqb modelId "constructor" then Some "Object"
  else if String.eqb modelId "__proto__" then Some "undefined"
  else if existsb (String.eqb modelId) inheritedMethods then Some modelId
  else None.

Definition respostaArmazenado : string :=
  "✅ Conteúdo armazenado com sucesso na memória! 🧠"
  ++ Js.nl
  ++ Js.nl
  ++ "Posso explicar esse conhecimento para você quando precisar. Você pode acessá-lo a qualquer momento nos seus dados de aprendizado.".

Definition respostaSaudacao : string :=
  "Olá! 👋 Eu sou o Olodymyr, seu assistente de IA pessoal."
  ++ Js.nl
  ++ Js.nl
  ++ "Posso ajudá-lo com:"
  ++ Js.nl
  ++ "- Responder perguntas 🤔"
  ++ Js.nl
  ++ "- Aprender e armazenar conhecimento 🧠"
  ++ Js.nl
  ++ "- Explicar conceitos como um professor 👨‍🏫"
  ++ Js.nl
  ++ "- Fazer scraping de conteúdo da web 🌐"
  ++ Js.nl
  ++ Js.nl
  ++ "Como posso ajudá-lo hoje?".

Definition respostaSimulada (modelName : string) : string :=
  "Estou processando sua solicitação como um assistente inteligente. 🤖"
  ++ Js.nl
  ++ Js.nl
  ++ "Este é um exemplo de resposta simulada do "
  ++ modelName
  ++ ". Em uma implementação real, a resposta viria da API do OpenRouter conectada ao modelo escolhido."
  ++ Js.nl
  ++ Js.nl
  ++ "Posso ajudar você com pesquisas, explicações como um professor, e guardar conhecimentos importantes para você. O que mais gostaria de saber? 📚".

(** The [try] block of the mock: the reply, or [None] when the block
    throws and the function rethrows its communication error.  The delay is
    not part of the result.  The toast hook the function calls before the
    block belongs to the UI library and is not in the sources; where that
    call throws, the function is the one that rejects every call. *)
Definition getChatCompletion (messages : list Message.t) (modelId : string)
  : option string :=
  match last (map Some messages) None with
  | None => None
  | Some lastMessage =>
      let lower := Js.toLowerCase (Message.content lastMessage) in
      if Js.includes "aprenda isso" lower || Js.includes "guarde isso" lower then
        Some respostaArmazenado
      else if Js.includes "olá" lower || Js.includes "oi" lower then
        Some respostaSaudacao
      else option_map respostaSimulada (modelName modelId)
  end.

(** ** The chat input ([ChatInput], [handleSubmit]) *)

(** The component state the handler reads and writes. *)
Record ChatInput : Type := mkChatInput
  { inputValue : string;
    isSubmitting : bool }.

(** What one run of the handler draws from [uuidv4()] and [new Date()]. *)
Record SubmitEnv : Type := mkSubmitEnv
  { envUser : SessionEnv;
    envLearning : LearningEnv;
    envLocaleDate : string;
    envTempDate : Date;
    envAssistant : SessionEnv }.

(** How a run of the handler ends: it returned at once, it appended the
    reply, or the [catch] block reported the error in a toast. *)
Inductive Outcome : Type := Ignored | Answered | ErrorToast.

(** What a run of the handler leaves: the store, the component state, the
    call it made to the completion function (the messages and the model id),
    and how it ended. *)
Record SubmitResult : Type := mkSubmitResult
  { store : AppState;
    chatInput : ChatInput;
    request : option (list Message.t * string);
    outcome : Outcome }.

(** The alternatives of [/aprenda isso|guarde isso/i]. *)
Definition learnPattern : list string := ["aprenda isso"; "guarde isso"].

(** The test of the learning request on the trimmed input. *)
Definition isLearningRequest (userInput : string) : bool :=
  Js.includes "aprenda isso" (Js.toLowerCase userInput)
  || Js.includes "guarde isso" (Js.toLowerCase userInput).

(** [userInput.replace(/aprenda isso|guarde isso/i, '').trim()]. *)
Definition learnContent (userInput : string) : string :=
  Js.trim (Js.replaceFirstCI learnPattern userInput).

(** The learning branch of the handler. *)
Definition learnStep (env : SubmitEnv) (userInput : string) (st : AppState) : AppState :=
  if isLearningRequest userInput then
    let content := learnContent userInput in
    if Js.truthy content then
      addLearningSession (envLearning env)
        ("Aprendizado " ++ envLocaleDate env)
        content
        "Conteúdo aprendido por comando direto"
        None
        st
    else st
  else st.

(** [sessions.find(s => s.id === currentSessionId)?.messages || []]. *)
Definition currentMessages (st : AppState) : list Message.t :=
  match findSession (currentSessionId st) (sessions st) with
  | Some s => Session.messages s
  | None => []
  end.

(** The messages handed to the completion function.  [st] is the store as
    the component last rendered it, that is, before the handler's own
    [addMessage]. *)
Definition completionInput (env : SubmitEnv) (st : AppState) (userInput : string)
  : list Message.t :=
  currentMessages st ++ [Message.mk "temp" user userInput (envTempDate env)].

Section Handler.

(** The completion function the handler awaits; [None] is a rejected
    promise. *)
Variable complete : list Message.t -> string -> option string.

Definition handleSubmit (env : SubmitEnv) (ui : ChatInput) (st : AppState)
  : SubmitResult :=
  if negb (Js.truthy (Js.trim (inputValue ui))) || isSubmitting ui then
    mkSubmitResult st ui None Ignored
  else
    let userInput := Js.trim (inputValue ui) in
    let st1 := addMessage (envUser env) userInput user st in
    let st2 := learnStep env userInput st1 in
    let messages := completionInput env st userInput in
    let modelId := UserSettings.preferredModel (userSettings st) in
    match complete messages modelId with
    | Some response =>
        mkSubmitResult (addMessage (envAssistant env) response assistant st2)
          (mkChatInput EmptyString false) (Some (messages, modelId)) Answered
    | None =>
        mkSubmitResult st2 (mkChatInput EmptyString false) (Some (messages, modelId)) ErrorToast
    end.

End Handler.

(** ** The recent-history window as the specification words it *)

(** The last [limit] turns of [turns], in their order. *)
Definition spec_recentHistory {A : Type} (limit : nat) (turns : list A) : list A :=
  skipn (List.length turns - limit) turns.

(** ** Well-formed stores *)

(** The current-session reference is [null] or names a session of the
    store by a non-empty id. *)
Definition refOk (st : AppState) : bool :=
  match currentSessionId st with
  | None => true
  | Some r =>
      Js.truthy r && existsb (fun s => String.eqb (Session.id s) r) (sessions st)
  end.

(** Session ids are pairwise different and non-empty, as [uuidv4()] makes
    them. *)
Definition idsOk (st : AppState) : Prop :=
  NoDup (map Session.id (sessions st))
  /\ forall s, In s (sessions st) -> Js.truthy (Session.id s) = true.

(** A call of [addMessage]: what it draws and what it is given. *)
Record AppendCall : Type := mkAppendCall
  { callEnv : SessionEnv;
    callContent : string;
    callRole : Role }.

Definition turnOf (c : AppendCall) : Message.t :=
  newMessage (callEnv c) (callContent c) (callRole c).

(** The calls applied one after the other. *)
Definition appendAll (calls : list AppendCall) (st : AppState) : AppState :=
  fold_left (fun s c => addMessage (callEnv c) (callContent c) (callRole c) s) calls st.

(** ** The web extraction ([scrapeWebContent], [handleWebScrape]) *)

(** What a call that may throw gives: the value it returns, or the message
    of the error it throws. *)
Inductive Result (A : Type) : Type :=
  | Returned (value : A)
  | Thrown (message : string).
Arguments Returned {A} value.
Arguments Thrown {A} message.

Definition conteudoExtraido (url : string) : string :=
  "Este é um conteúdo de exemplo extraído da URL "
  ++ url
  ++ "."
  ++ Js.nl
  ++ Js.nl
  ++ "Em uma implementação real, este texto seria o conteúdo real da página web, processado e formatado de forma legível. O sistema usaria BeautifulSoup para extrair o conteúdo relevante, removendo elementos de navegação e anúncios."
  ++ Js.nl
  ++ Js.nl
  ++ "O conteúdo seria então transformado em texto simples ou HTML simplificado para armazenamento na memória do agente.".

(** The mock extraction: only the first four characters of the URL are
    looked at.  The delay is not part of the result. *)
Definition scrapeWebContent (url : string) : Result string :=
  if negb (Js.startsWith "http" url) then
    Thrown "URL inválida. A URL deve começar com http:// ou https://"
  else Returned (conteudoExtraido url).

Definition pedidoDeAnalise (url : string) : string :=
  "Analisar e aprender conteúdo de: "
  ++ url.

Definition respostaExtraido (url : string) : string :=
  "✅ Conteúdo extraído e armazenado com sucesso da URL: "
  ++ url
  ++ Js.nl
  ++ Js.nl
  ++ "O conhecimento foi adicionado à sua biblioteca. Você pode consultar ou pedir explicações sobre este conteúdo quando desejar.".

(** What one run of [handleWebScrape] draws from [uuidv4()] and
    [new Date()]. *)
Record ScrapeEnv : Type := mkScrapeEnv
  { scrUser : SessionEnv;
    scrLearning : LearningEnv;
    scrAssistant : SessionEnv }.

(** The component state [handleWebScrape] reads and writes. *)
Record UrlDialog : Type := mkUrlDialog
  { url : string;
    urlDialogOpen : bool;
    scrSubmitting : bool }.

(** What a run of [handleWebScrape] leaves: the store, the component state
    and the description of the toast of its [catch] block, if it got there. *)
Record ScrapeResult : Type := mkScrapeResult
  { scrStore : AppState;
    scrDialog : UrlDialog;
    scrToast : option string }.

Section WebScrape.

(** [new URL(url).hostname]: the host name, or the message of the error the
    constructor throws on a text that is not a URL. *)
Variable hostnameOf : string -> Result string.

Definition handleWebScrape (env : ScrapeEnv) (ui : UrlDialog) (st : AppState)
  : ScrapeResult :=
  if negb (Js.truthy (Js.trim (url ui))) then mkScrapeResult st ui None
  else
    let st1 := addMessage (scrUser env) (pedidoDeAnalise (url ui)) user st in
    match scrapeWebContent (url ui) with
    | Thrown message =>
        mkScrapeResult st1 (mkUrlDialog (url ui) false false) (Some message)
    | Returned content =>
        match hostnameOf (url ui) with
        | Thrown message =>
            mkScrapeResult st1 (mkUrlDialog (url ui) false false) (Some message)
        | Returned host =>
            let st2 :=
              addLearningSession (scrLearning env) ("Web: " ++ host) content
                "Conteúdo extraído de scraping web" (Some (url ui)) st1 in
            mkScrapeResult
              (addMessage (scrAssistant env) (respostaExtraido (url ui)) assistant st2)
              (mkUrlDialog EmptyString false false) None
        end
    end.

End WebScrape.

(** ** The sidebar ([Sidebar], [handleCreateSession]) *)

Record SidebarForm : Type := mkSidebarForm
  { newSessionName : string;
    newSessionDesc : string;
    dialogOpen : bool }.

Definition handleCreateSession (e : SessionEnv) (form : SidebarForm) (st : AppState)
  : AppState * SidebarForm :=
  if Js.truthy (Js.trim (newSessionName form)) then
    (createNewSession e (newSessionName form) (newSessionDesc form) st,
     mkSidebarForm EmptyString EmptyString false)
  else (st, form).

(** ** Runs of store actions *)

(** The actions of the store, each with what it draws and what it is
    given. *)
Inductive Action : Type :=
  | ActCreate (e : SessionEnv) (name description : string)
  | ActSelect (sessionId : string)
  | ActDelete (sessionId : string)
  | ActRename (now : Date) (sessionId name : string) (description : option string)
  | ActAddMessage (e : SessionEnv) (content : string) (role : Role)
  | ActClear (now : Date) (sessionId : string)
  | ActAddLearning (e : LearningEnv) (name content description : string)
      (source : option string)
  | ActDeleteLearning (id : string)
  | ActUpdateLearning (now : Date) (id : string) (updates : LearningUpdates)
  | ActSetLoading (b : bool)
  | ActUpdateSettings (settings : SettingsUpdates).

Definition applyAction (a : Action) (st : AppState) : AppState :=
  match a with
  | ActCreate e name description => createNewSession e name description st
  | ActSelect sessionId => setCurrentSession sessionId st
  | ActDelete sessionId => deleteSession sessionId st
  | ActRename now sessionId name description =>
      renameSession now sessionId name description st
  | ActAddMessage e content role => addMessage e content role st
  | ActClear now sessionId => clearMessages now sessionId st
  | ActAddLearning e name content description source =>
      addLearningSession e name content description source st
  | ActDeleteLearning id => deleteLearningSession id st
  | ActUpdateLearning now id updates => updateLearningSession now id updates st
  | ActSetLoading b => setLoading b st
  | ActUpdateSettings settings => updateUserSettings settings st
  end.

(** The id is one a session of the store has. *)
Definition hasSession (sid : string) (st : AppState) : bool :=
  existsb (fun s => String.eqb (Session.id s) sid) (sessions st).

(** A drawn uuid is not empty and is not the id of a session of the
    store. *)
Definition freshId (u : string) (st : AppState) : bool :=
  Js.truthy u && negb (hasSession u st).

(** The conditions under which the components call the actions: the ids
    drawn are fresh, and the sidebar selects a session of its list only. *)
Definition callable (a : Action) (st : AppState) : bool :=
  match a with
  | ActCreate e _ _ => freshId (uuidSession e) st
  | ActAddMessage e _ _ => freshId (uuidSession e) st
  | ActSelect sessionId => hasSession sessionId st
  | _ => true
  end.

Fixpoint runActions (acts : list Action) (st : AppState) : AppState :=
  match acts with
  | [] => st
  | a :: rest => runActions rest (applyAction a st)
  end.

Fixpoint callableRun (acts : list Action) (st : AppState) : bool :=
  match acts with
  | [] => true
  | a :: rest => callable a st && callableRun rest (applyAction a st)
  end.

(** ** Blank texts *)

(** The no-break space U+00A0, a white space character of two bytes. *)
Definition nbsp : string :=
  String (ascii_of_nat 194) (String (ascii_of_nat 160) EmptyString).

(** The text is made of white space characters only (the empty text
    included): dropping the leading ones leaves nothing. *)
Definition allWhiteSpace (s : string) : bool :=
  negb (Js.truthy (Js.trimStart s)).

(** The draws of one run of the handler, for the concrete runs below. *)
Definition sampleEnv : SubmitEnv :=
  mkSubmitEnv (mkSessionEnv "s-user" "m-user" 10 10 10)
    (mkLearningEnv "k-1" 11 11) "02/11/2026" 12
    (mkSessionEnv "s-assistant" "m-assistant" 13 13 13).

(** * Properties *)

(** ** Auxiliary facts on references and lists *)

Lemma idIs_true : forall ref sid, idIs ref sid = true <-> ref = Some sid.
Proof.
  intros [r|] sid; simpl.
  - rewrite String.eqb_eq. split; intro H; [subst; reflexivity | now inversion H].
  - split; discriminate.
Qed.

Lemma idIs_false : forall ref sid, idIs ref sid = false <-> ref <> Some sid.
Proof.
  intros ref sid. rewrite <- idIs_true.
  destruct (idIs ref sid); split; intro H; try reflexivity; try discriminate.
  now elim H.
Qed.

Lemma falsyRef_Some : forall r, Js.truthy r = true -> falsyRef (Some r) = false.
Proof. intros r H; simpl; now rewrite H. Qed.

(** A conditional rewrite of the elements that touches none of them. *)
Lemma map_untouched :
  forall (A : Type) (c : A -> bool) (g : A -> A) (l : list A),
    (forall a, In a l -> c a = false) ->
    map (fun a => if c a then g a else a) l = l.
Proof.
  intros A c g l; induction l as [|a l IH]; intros H; simpl.
  - reflexivity.
  - rewrite (H a (or_introl eq_refl)), IH; [reflexivity|].
    intros b Hb; apply H; now right.
Qed.

Lemma find_exists :
  forall (A : Type) (f : A -> bool) (l : list A) (a : A),
    In a l -> f a = true -> exists b, find f l = Some b.
Proof.
  intros A f l a Hin Hf. destruct (find f l) as [b|] eqn:E.
  - now exists b.
  - rewrite (find_none f l E a Hin) in Hf; discriminate.
Qed.

(** Among two or more sessions with pairwise different ids, one has an id
    other than [sid]. *)
Lemma another_session :
  forall (l : list Session.t) (sid : string),
    NoDup (map Session.id l) -> 2 <= List.length l ->
    exists s, In s l /\ Session.id s <> sid.
Proof.
  intros [|a [|b l]] sid Hnd Hlen; simpl in Hlen; try lia.
  destruct (String.eqb (Session.id a) sid) eqn:E.
  - apply String.eqb_eq in E. exists b; split; [simpl; auto|].
    intro Hb. inversion Hnd as [|x xs Hnotin _]; subst.
    apply Hnotin. simpl. left. congruence.
  - apply String.eqb_neq in E. exists a; split; [simpl; auto | exact E].
Qed.

Lemma setLearningData_same : forall st, setLearningData (learningData st) st = st.
Proof. now intros []. Qed.

Lemma setSessions_same : forall st, setSessions (sessions st) st = st.
Proof. now intros []. Qed.

(** ** Deleting a session *)

(** C10: deleting a session that is not the current one leaves the
    current-session reference as it was, keeps exactly the sessions with
    another id, each of them unchanged and in the same order, and touches
    nothing else of the store. *)
Theorem deleteSession_other_frame :
  forall (sid : string) (st : AppState),
    currentSessionId st <> Some sid ->
    currentSessionId (deleteSession sid st) = currentSessionId st
    /\ (forall s, In s (sessions (deleteSession sid st))
                  <-> In s (sessions st) /\ Session.id s <> sid)
    /\ (forall l1 s l2, sessions st = (l1 ++ s :: l2)%list -> Session.id s <> sid ->
          sessions (deleteSession sid st)
          = (sessions (deleteSession sid (setSessions l1 st)) ++ s ::
             sessions (deleteSession sid (setSessions l2 st)))%list)
    /\ learningData (deleteSession sid st) = learningData st
    /\ isLoading (deleteSession sid st) = isLoading st
    /\ userSettings (deleteSession sid st) = userSettings st.
Proof.
  intros sid st Hcur. apply idIs_false in Hcur.
  unfold deleteSession; simpl. rewrite Hcur.
  split; [reflexivity|]. split; [|split; [|now repeat split]].
  - intro s. rewrite filter_In, negb_true_iff, String.eqb_neq. tauto.
  - intros l1 s l2 Hl Hne. rewrite Hl, filter_app. simpl.
    apply String.eqb_neq in Hne. now rewrite Hne.
Qed.

Lemma deleteSession_other_frame_witness :
  let st := createNewSession (mkSessionEnv "s2" "m2" 2 2 2) "b" "second"
              (createNewSession (mkSessionEnv "s1" "m1" 1 1 1) "a" "first" initialState) in
  currentSessionId (deleteSession "s1" st) = Some "s2"
  /\ sessions (deleteSession "s1" st) = [Session.mk "s2" "b" "second" [] 2 2].
Proof.
  intro st.
  assert (Hcur : currentSessionId st <> Some "s1") by (simpl; discriminate).
  destruct (deleteSession_other_frame "s1" st Hcur) as [H _].
  split; [rewrite H; reflexivity | reflexivity].
Defined.

(** C4: deleting the current session.  With two or more sessions the new
    current session is a remaining session with another id; when it was the
    only session no session is current; and in every case the reference left
    behind names a remaining session, never the deleted one. *)
Theorem deleteSession_current :
  forall (sid : string) (st : AppState),
    currentSessionId st = Some sid ->
    (exists s, In s (sessions st) /\ Session.id s = sid) ->
    idsOk st ->
    (2 <= List.length (sessions st) ->
       exists s', In s' (sessions (deleteSession sid st))
                  /\ Session.id s' <> sid
                  /\ currentSessionId (deleteSession sid st) = Some (Session.id s'))
    /\ (List.length (sessions st) = 1 ->
          currentSessionId (deleteSession sid st) = None)
    /\ (forall r, currentSessionId (deleteSession sid st) = Some r ->
          r <> sid
          /\ exists s', In s' (sessions (deleteSession sid st)) /\ Session.id s' = r).
Proof.
  intros sid st Hcur Hex [Hnd Htruthy].
  assert (Hfound : forall s', find (fun s => negb (String.eqb (Session.id s) sid))
                                (sessions st) = Some s' ->
                              In s' (sessions (deleteSession sid st))
                              /\ Session.id s' <> sid).
  { intros s' Hf. apply find_some in Hf. destruct Hf as [Hin Hne].
    split.
    - unfold deleteSession; simpl. apply filter_In. now split.
    - now apply negb_true_iff, String.eqb_neq in Hne. }
  assert (Hid : idIs (currentSessionId st) sid = true) by now apply idIs_true.
  split; [|split].
  - intros Hlen.
    destruct (another_session (sessions st) sid Hnd Hlen) as [a [Hain Hane]].
    destruct (find_exists _ (fun s => negb (String.eqb (Session.id s) sid))
                (sessions st) a Hain) as [s' Hs'].
    { now apply negb_true_iff, String.eqb_neq. }
    destruct (Hfound s' Hs') as [Hin' Hne'].
    exists s'. repeat split; try assumption.
    unfold deleteSession; simpl. rewrite Hid.
    assert (Hlt : Nat.ltb 1 (List.length (sessions st)) = true)
      by (apply Nat.ltb_lt; lia).
    rewrite Hlt, Hs'. simpl.
    rewrite Htruthy; [reflexivity|].
    now apply find_some in Hs'.
  - intros Hlen. unfold deleteSession; simpl. rewrite Hid, Hlen. reflexivity.
  - intros r Hr. unfold deleteSession in Hr; simpl in Hr. rewrite Hid in Hr.
    destruct (Nat.ltb 1 (List.length (sessions st))); [|discriminate].
    destruct (find _ (sessions st)) as [s'|] eqn:Hs'; [|discriminate].
    simpl in Hr. destruct (Js.truthy (Session.id s')); [|discriminate].
    inversion Hr; subst r. destruct (Hfound s' eq_refl) as [Hin' Hne'].
    split; [exact Hne'|]. now exists s'.
Qed.

Lemma deleteSession_current_witness :
  let st := createNewSession (mkSessionEnv "s2" "m2" 2 2 2) "b" "second"
              (createNewSession (mkSessionEnv "s1" "m1" 1 1 1) "a" "first" initialState) in
  (2 <= List.length (sessions st) ->
     exists s', In s' (sessions (deleteSession "s2" st))
                /\ Session.id s' <> "s2"
                /\ currentSessionId (deleteSession "s2" st) = Some (Session.id s'))
  /\ (List.length (sessions st) = 1 ->
        currentSessionId (deleteSession "s2" st) = None)
  /\ (forall r, currentSessionId (deleteSession "s2" st) = Some r ->
        r <> "s2"
        /\ exists s', In s' (sessions (deleteSession "s2" st)) /\ Session.id s' = r).
Proof.
  intro st. apply (deleteSession_current "s2" st).
  - reflexivity.
  - exists (Session.mk "s2" "b" "second" [] 2 2). simpl. auto.
  - split.
    + simpl. repeat constructor; simpl; intuition discriminate.
    + intros s Hs. simpl in Hs.
      destruct Hs as [Hs|[Hs|[]]]; subst s; reflexivity.
Defined.

(** Deleting the current session of a store of two sessions, and of a store
    of one. *)
Example deleteSession_current_two :
  currentSessionId
    (deleteSession "s2"
       (createNewSession (mkSessionEnv "s2" "m2" 2 2 2) "b" "second"
          (createNewSession (mkSessionEnv "s1" "m1" 1 1 1) "a" "first" initialState)))
  = Some "s1".
Proof. reflexivity. Qed.

Example deleteSession_current_only :
  deleteSession "s1"
    (createNewSession (mkSessionEnv "s1" "m1" 1 1 1) "a" "first" initialState)
  = initialState.
Proof. reflexivity. Qed.

(** Deleting a session keeps a well-formed reference well-formed. *)
Lemma deleteSession_refOk :
  forall sid st, refOk st = true -> refOk (deleteSession sid st) = true.
Proof.
  intros sid st H. unfold refOk in *.
  destruct (currentSessionId (deleteSession sid st)) as [r|] eqn:E; [|reflexivity].
  unfold deleteSession in E |- *; simpl in *.
  destruct (idIs (currentSessionId st) sid) eqn:Hid.
  - destruct (Nat.ltb 1 (List.length (sessions st))); [|discriminate].
    destruct (find _ (sessions st)) as [s'|] eqn:Hs'; [|discriminate].
    simpl in E. destruct (Js.truthy (Session.id s')) eqn:Ht; [|discriminate].
    inversion E; subst r. rewrite Ht. simpl.
    apply existsb_exists. exists s'. apply find_some in Hs'.
    split; [|apply String.eqb_refl]. apply filter_In. exact Hs'.
  - rewrite E in H. apply andb_true_iff in H. destruct H as [Ht Hex].
    rewrite Ht. simpl. apply existsb_exists in Hex. destruct Hex as [s [Hin Hs]].
    apply existsb_exists. exists s. split; [|exact Hs].
    apply filter_In. split; [exact Hin|].
    apply String.eqb_eq in Hs. apply negb_true_iff, String.eqb_neq.
    rewrite Hs. apply idIs_false in Hid. rewrite E in Hid. congruence.
Qed.

(** The other session actions keep it well-formed too, ids being drawn
    non-empty. *)
Lemma createNewSession_refOk :
  forall e name description st,
    Js.truthy (uuidSession e) = true ->
    refOk (createNewSession e name description st) = true.
Proof.
  intros e name description st Hu. unfold refOk, createNewSession. simpl.
  rewrite Hu. simpl. rewrite existsb_app. simpl.
  rewrite String.eqb_refl. now rewrite orb_true_r.
Qed.

Lemma refOk_same_ids :
  forall st st',
    currentSessionId st' = currentSessionId st ->
    map Session.id (sessions st') = map Session.id (sessions st) ->
    refOk st = true -> refOk st' = true.
Proof.
  intros st st' Hc Hi H. unfold refOk in *. rewrite Hc.
  destruct (currentSessionId st) as [r|]; [|reflexivity].
  apply andb_true_iff in H. destruct H as [Ht Hex]. rewrite Ht. simpl.
  assert (E : forall l, existsb (fun s => String.eqb (Session.id s) r) l
                        = existsb (fun i => String.eqb i r) (map Session.id l)).
  { induction l as [|a l IH]; simpl; [|rewrite IH]; reflexivity. }
  rewrite E, Hi, <- E. exact Hex.
Qed.

Lemma clearMessages_refOk :
  forall now sid st, refOk st = true -> refOk (clearMessages now sid st) = true.
Proof.
  intros now sid st. apply refOk_same_ids; [reflexivity|].
  unfold clearMessages; simpl. rewrite map_map. apply map_ext. intro s.
  now destruct (String.eqb (Session.id s) sid).
Qed.

Lemma addMessage_refOk :
  forall e content role st,
    Js.truthy (uuidSession e) = true ->
    refOk st = true -> refOk (addMessage e content role st) = true.
Proof.
  intros e content role st Hu H.
  destruct (falsyRef (currentSessionId st)) eqn:F.
  - unfold refOk, addMessage. rewrite F. simpl.
    now rewrite Hu, String.eqb_refl.
  - revert H. apply refOk_same_ids; unfold addMessage; rewrite F; [reflexivity|].
    simpl. rewrite map_map. apply map_ext. intro s.
    now destruct (idIs (currentSessionId st) (Session.id s)).
Qed.

(** ** Selecting the current session *)

(** C7, as the store has it: [setCurrentSession] installs the id it is
    given without looking it up and cannot fail; when a session has that id
    it is the one the reference then finds, and nothing else changes. *)
Theorem setCurrentSession_installs :
  forall (sid : string) (st : AppState),
    currentSessionId (setCurrentSession sid st) = Some sid
    /\ sessions (setCurrentSession sid st) = sessions st
    /\ learningData (setCurrentSession sid st) = learningData st
    /\ (forall s, In s (sessions st) -> Session.id s = sid ->
          exists s', findSession (currentSessionId (setCurrentSession sid st))
                       (sessions (setCurrentSession sid st)) = Some s'
                     /\ Session.id s' = sid)
    /\ ((forall s, In s (sessions st) -> Session.id s <> sid) ->
          findSession (currentSessionId (setCurrentSession sid st))
            (sessions (setCurrentSession sid st)) = None).
Proof.
  intros sid st. simpl. repeat (split; [reflexivity|]). split.
  - intros s Hin Hid. unfold findSession.
    destruct (find_exists _ (fun s0 => idIs (Some sid) (Session.id s0)) (sessions st) s Hin)
      as [s' Hs'].
    { simpl. now apply String.eqb_eq. }
    exists s'. split; [exact Hs'|].
    apply find_some in Hs'. destruct Hs' as [_ Hs']. simpl in Hs'.
    now apply String.eqb_eq in Hs'.
  - intros Hnone. unfold findSession.
    destruct (find _ (sessions st)) as [s'|] eqn:E; [|reflexivity].
    apply find_some in E. destruct E as [Hin Hs']. simpl in Hs'.
    apply String.eqb_eq in Hs'. now elim (Hnone s' Hin).
Qed.

(** C7 fails as stated: selecting an id that no session has is accepted,
    and the store is left with a current-session reference that names no
    session. *)
Lemma setCurrentSession_dangling :
  currentSessionId (setCurrentSession "ghost" initialState) = Some "ghost"
  /\ sessions (setCurrentSession "ghost" initialState) = []
  /\ refOk (setCurrentSession "ghost" initialState) = false.
Proof. repeat split. Qed.

(** ** Clearing a session *)

(** C9, as the store has it: [clearMessages] empties the turn list of the
    session with the given id and stamps it with the clock reading of the
    call, whatever the session held; the stamp is later than the old one
    exactly when the clock reading is; sessions with another id are not
    touched; and clearing again leaves every turn list as the first clearing
    left it. *)
Theorem clearMessages_empties :
  forall (now now' : Date) (sid : string) (st : AppState),
    (forall s, In s (sessions st) -> Session.id s = sid ->
       In (cleared now s) (sessions (clearMessages now sid st)))
    /\ (forall s', In s' (sessions (clearMessages now sid st)) ->
          Session.id s' = sid ->
          Session.messages s' = [] /\ Session.updatedAt s' = now)
    /\ (forall s, (Session.updatedAt s < Session.updatedAt (cleared now s))%Z
                  <-> (Session.updatedAt s < now)%Z)
    /\ (forall s, In s (sessions st) -> Session.id s <> sid ->
          In s (sessions (clearMessages now sid st)))
    /\ map Session.id (sessions (clearMessages now sid st))
       = map Session.id (sessions st)
    /\ map Session.messages
         (sessions (clearMessages now' sid (clearMessages now sid st)))
       = map Session.messages (sessions (clearMessages now sid st)).
Proof.
  intros now now' sid st. unfold clearMessages; simpl.
  split; [|split; [|split; [|split; [|split]]]].
  - intros s Hin Hid. apply in_map_iff. exists s. split; [|exact Hin].
    apply String.eqb_eq in Hid. now rewrite Hid.
  - intros s' Hin Hid. apply in_map_iff in Hin. destruct Hin as [s [Hs _]].
    destruct (String.eqb (Session.id s) sid) eqn:E.
    + subst s'. simpl. auto.
    + subst s'. apply String.eqb_neq in E. contradiction.
  - intro s. simpl. tauto.
  - intros s Hin Hne. apply in_map_iff. exists s. split; [|exact Hin].
    apply String.eqb_neq in Hne. now rewrite Hne.
  - rewrite map_map. apply map_ext. intro s.
    now destruct (String.eqb (Session.id s) sid).
  - rewrite !map_map. apply map_ext. intro s.
    destruct (String.eqb (Session.id s) sid) eqn:E; simpl; rewrite E; reflexivity.
Qed.

(** C9 fails as stated: a session created and cleared within the same
    millisecond carries the same [updatedAt] before and after the clearing,
    so the stamp did not strictly increase. *)
Lemma clearMessages_not_strict :
  let st := createNewSession (mkSessionEnv "s1" "m1" 1000 1000 1000) "a" "first"
              initialState in
  map Session.updatedAt (sessions st) = [1000%Z]
  /\ map Session.updatedAt (sessions (clearMessages 1000 "s1" st)) = [1000%Z]
  /\ ~ (forall t t',
          In t (map Session.updatedAt (sessions st)) ->
          In t' (map Session.updatedAt (sessions (clearMessages 1000 "s1" st))) ->
          (t < t')%Z).
Proof.
  intro st. split; [reflexivity|]. split; [reflexivity|].
  intro H. specialize (H 1000%Z 1000%Z). simpl in H.
  assert (K : (1000 < 1000)%Z) by (apply H; auto). lia.
Qed.

(** ** Updating a learning artifact *)

(** C8, as the store has it: [updateLearningSession] replaces every
    artifact of the given id by its merge with the updates, in which each
    provided field takes the provided value, each other field keeps the old
    one, [id] and [createdAt] are kept and [updatedAt] is the clock reading
    of the call; artifacts with another id are not touched; and when no
    artifact has the id the store is returned as it was, with no error. *)
Theorem updateLearningSession_merges :
  forall (now : Date) (id : string) (u : LearningUpdates) (st : AppState),
    (forall a, In a (learningData st) -> LearningSession.id a = id ->
       In (mergeLearning now u a) (learningData (updateLearningSession now id u st)))
    /\ (forall a,
          LearningSession.updatedAt (mergeLearning now u a) = now
          /\ LearningSession.id (mergeLearning now u a) = LearningSession.id a
          /\ LearningSession.createdAt (mergeLearning now u a) = LearningSession.createdAt a
          /\ (forall v, updName u = Some v ->
                LearningSession.name (mergeLearning now u a) = v)
          /\ (updName u = None ->
                LearningSession.name (mergeLearning now u a) = LearningSession.name a)
          /\ (forall v, updContent u = Some v ->
                LearningSession.content (mergeLearning now u a) = v)
          /\ (updContent u = None ->
                LearningSession.content (mergeLearning now u a) = LearningSession.content a)
          /\ (forall v, updDescription u = Some v ->
                LearningSession.description (mergeLearning now u a) = v)
          /\ (updDescription u = None ->
                LearningSession.description (mergeLearning now u a)
                = LearningSession.description a)
          /\ (forall v, updSource u = Some v ->
                LearningSession.source (mergeLearning now u a) = Some v)
          /\ (updSource u = None ->
                LearningSession.source (mergeLearning now u a) = LearningSession.source a))
    /\ (forall a, In a (learningData st) -> LearningSession.id a <> id ->
          In a (learningData (updateLearningSession now id u st)))
    /\ sessions (updateLearningSession now id u st) = sessions st
    /\ currentSessionId (updateLearningSession now id u st) = currentSessionId st
    /\ ((forall a, In a (learningData st) -> LearningSession.id a <> id) ->
          updateLearningSession now id u st = st).
Proof.
  intros now id u st. unfold updateLearningSession.
  split; [|split; [|split; [|split; [|split]]]]; try reflexivity.
  - intros a Hin Hid. simpl. apply in_map_iff. exists a. split; [|exact Hin].
    apply String.eqb_eq in Hid. now rewrite Hid.
  - intro a. unfold mergeLearning; simpl.
    repeat split; try (intros v Hv; now rewrite Hv); try (intros Hv; now rewrite Hv).
  - intros a Hin Hne. simpl. apply in_map_iff. exists a. split; [|exact Hin].
    apply String.eqb_neq in Hne. now rewrite Hne.
  - intros Hnone. rewrite map_untouched.
    + apply setLearningData_same.
    + intros a Hin. apply String.eqb_neq. now apply Hnone.
Qed.

(** C8 fails as stated: updating an id that no artifact has reports
    nothing and returns the store unchanged. *)
Lemma updateLearningSession_absent_silent :
  let st := addLearningSession (mkLearningEnv "k1" 1 1) "Fato" "o ceu e azul"
              "nota" None initialState in
  updateLearningSession 2 "ghost"
    (mkLearningUpdates (Some "Outro") None (Some "novo") None None) st
  = st
  /\ (forall a, In a (learningData st) -> LearningSession.id a <> "ghost").
Proof.
  intro st. split; [reflexivity|].
  intros a [Ha|[]]. subst a. simpl. discriminate.
Qed.

(** An update of an artifact that is there. *)
Example updateLearningSession_present :
  learningData
    (updateLearningSession 2 "k1"
       (mkLearningUpdates (Some "Outro") None (Some "novo") None None)
       (addLearningSession (mkLearningEnv "k1" 1 1) "Fato" "o ceu e azul"
          "nota" None initialState))
  = [LearningSession.mk "k1" "Outro" "nota" "novo" None 1 2].
Proof. reflexivity. Qed.

(** ** Appending messages *)

Lemma find_map_same_test :
  forall (A : Type) (p : A -> bool) (f : A -> A) (l : list A),
    (forall a, p (f a) = p a) ->
    find p (map f l) = option_map f (find p l).
Proof.
  intros A p f l Hp; induction l as [|a l IH]; simpl.
  - reflexivity.
  - rewrite Hp. destruct (p a); [reflexivity | exact IH].
Qed.

Lemma find_never :
  forall (A : Type) (p : A -> bool) (l : list A),
    (forall a, p a = false) -> find p l = None.
Proof.
  intros A p l Hp; induction l as [|a l IH]; simpl; [|rewrite Hp]; auto.
Qed.

Lemma addMessage_learningData :
  forall e content role st,
    learningData (addMessage e content role st) = learningData st.
Proof.
  intros e content role st. unfold addMessage.
  now destruct (falsyRef (currentSessionId st)).
Qed.

(** With a current session, [addMessage] keeps the reference and puts the
    new message at the end of that session. *)
Lemma addMessage_found :
  forall e content role st sid s,
    currentSessionId st = Some sid ->
    Js.truthy sid = true ->
    findSession (Some sid) (sessions st) = Some s ->
    currentSessionId (addMessage e content role st) = Some sid
    /\ findSession (Some sid) (sessions (addMessage e content role st))
       = Some (withMessage e content role s).
Proof.
  intros e content role st sid s Hcur Ht Hfind.
  unfold addMessage. rewrite Hcur, (falsyRef_Some sid Ht). simpl.
  split; [exact Hcur|].
  unfold findSession in *.
  rewrite find_map_same_test.
  - destruct (find_some _ _ Hfind) as [_ Hs].
    rewrite Hfind. simpl in Hs. unfold option_map. now rewrite Hs.
  - intro a. simpl.
    destruct (String.eqb (Session.id a) sid) eqn:E; simpl; now rewrite ?E.
Qed.

(** C5: calls of [addMessage] that go to one session each add exactly one
    message at the end of it, in the order of the calls: afterwards the
    session holds the messages it had, untouched, followed by one message
    per call, so its length has grown by the number of calls, and a session
    that started empty holds exactly as many messages as there were calls. *)
Theorem appendAll_appends :
  forall (calls : list AppendCall) (st : AppState) (sid : string) (s : Session.t),
    currentSessionId st = Some sid ->
    Js.truthy sid = true ->
    findSession (Some sid) (sessions st) = Some s ->
    exists s',
      currentSessionId (appendAll calls st) = Some sid
      /\ findSession (Some sid) (sessions (appendAll calls st)) = Some s'
      /\ Session.id s' = Session.id s
      /\ Session.messages s' = (Session.messages s ++ map turnOf calls)%list
      /\ List.length (Session.messages s')
         = List.length (Session.messages s) + List.length calls
      /\ (Session.messages s = [] ->
            Session.messages s' = map turnOf calls
            /\ List.length (Session.messages s') = List.length calls).
Proof.
  induction calls as [|c calls IH]; intros st sid s Hcur Ht Hfind.
  - exists s. cbn [appendAll fold_left map List.length].
    rewrite app_nil_r, Nat.add_0_r.
    do 5 (split; [assumption || reflexivity|]).
    intro H. rewrite H. split; reflexivity.
  - destruct (addMessage_found (callEnv c) (callContent c) (callRole c) st sid s
                Hcur Ht Hfind) as [Hcur1 Hfind1].
    destruct (IH _ sid _ Hcur1 Ht Hfind1) as [s' (Hc & Hf & Hid & Hm & Hl & _)].
    exists s'. cbn [appendAll fold_left map List.length] in *.
    assert (Hm' : Session.messages s'
                  = (Session.messages s ++ turnOf c :: map turnOf calls)%list).
    { rewrite Hm. cbn [withMessage Session.messages]. now rewrite <- app_assoc. }
    assert (Hl' : List.length (Session.messages s')
                  = List.length (Session.messages s) + S (List.length calls)).
    { rewrite Hm', length_app. cbn [List.length]. now rewrite length_map. }
    do 5 (split; [assumption|]).
    intro H. rewrite H in Hm', Hl'. split; assumption.
Qed.

Lemma appendAll_appends_witness :
  let s0 := Session.mk "s1" "a" "first" [] 1 1 in
  let st := createNewSession (mkSessionEnv "s1" "m0" 1 1 1) "a" "first" initialState in
  let calls := [mkAppendCall (mkSessionEnv "x1" "m1" 2 2 2) "hi" user;
                mkAppendCall (mkSessionEnv "x2" "m2" 3 3 3) "hello" assistant;
                mkAppendCall (mkSessionEnv "x3" "m3" 4 4 4) "how are you" user] in
  exists s',
    currentSessionId (appendAll calls st) = Some "s1"
    /\ findSession (Some "s1") (sessions (appendAll calls st)) = Some s'
    /\ Session.id s' = Session.id s0
    /\ Session.messages s' = (Session.messages s0 ++ map turnOf calls)%list
    /\ List.length (Session.messages s')
       = List.length (Session.messages s0) + List.length calls
    /\ (Session.messages s0 = [] ->
          Session.messages s' = map turnOf calls
          /\ List.length (Session.messages s') = List.length calls).
Proof.
  intros s0 st calls.
  apply (appendAll_appends calls st "s1" s0); reflexivity.
Defined.

(** The three calls of the witness, evaluated. *)
Example appendAll_three :
  map (fun s => map Message.content (Session.messages s))
    (sessions
       (appendAll
          [mkAppendCall (mkSessionEnv "x1" "m1" 2 2 2) "hi" user;
           mkAppendCall (mkSessionEnv "x2" "m2" 3 3 3) "hello" assistant;
           mkAppendCall (mkSessionEnv "x3" "m3" 4 4 4) "how are you" user]
          (createNewSession (mkSessionEnv "s1" "m0" 1 1 1) "a" "first" initialState)))
  = [["hi"; "hello"; "how are you"]].
Proof. reflexivity. Qed.

(** A sequence of calls when no session is current at the first of them:
    the first call starts the session, the others go to it. *)
Lemma appendAll_from_none :
  forall (c : AppendCall) (calls : list AppendCall) (st : AppState),
    falsyRef (currentSessionId st) = true ->
    Js.truthy (uuidSession (callEnv c)) = true ->
    exists s',
      findSession (currentSessionId (appendAll (c :: calls) st))
        (sessions (appendAll (c :: calls) st)) = Some s'
      /\ Session.messages s' = map turnOf (c :: calls).
Proof.
  intros c calls st Hf Ht. simpl.
  set (st1 := addMessage (callEnv c) (callContent c) (callRole c) st).
  assert (Hcur : currentSessionId st1 = Some (uuidSession (callEnv c))).
  { unfold st1, addMessage. now rewrite Hf. }
  assert (Hfind : findSession (Some (uuidSession (callEnv c))) (sessions st1)
                  = Some (autoSession (callEnv c) (callContent c) (callRole c))).
  { unfold st1, addMessage. rewrite Hf. unfold findSession. simpl.
    now rewrite String.eqb_refl. }
  destruct (appendAll_appends calls st1 _ _ Hcur Ht Hfind)
    as [s' (Hc & Hfd & _ & Hm & _)].
  exists s'. rewrite Hc. split; [exact Hfd|]. rewrite Hm. reflexivity.
Qed.

(** C6: [addMessage] with no current session puts a new session in front
    of the others, named "Nova conversa", holding the appended message
    alone, and makes it current; the sessions that were there and the rest
    of the store are as before.  With a current session no session is added,
    the reference stays, and only sessions of the current id change. *)
Theorem addMessage_autocreate :
  forall (e : SessionEnv) (content : string) (role : Role) (st : AppState),
    (falsyRef (currentSessionId st) = true ->
       sessions (addMessage e content role st)
       = autoSession e content role :: sessions st
       /\ Session.name (autoSession e content role) = "Nova conversa"
       /\ Session.messages (autoSession e content role)
          = [Message.mk (uuidMessage e) role content (dateMessage e)]
       /\ currentSessionId (addMessage e content role st)
          = Some (Session.id (autoSession e content role)))
    /\ (falsyRef (currentSessionId st) = false ->
          currentSessionId (addMessage e content role st) = currentSessionId st
          /\ map Session.id (sessions (addMessage e content role st))
             = map Session.id (sessions st)
          /\ forall s, In s (sessions st) ->
               idIs (currentSessionId st) (Session.id s) = false ->
               In s (sessions (addMessage e content role st)))
    /\ learningData (addMessage e content role st) = learningData st
    /\ isLoading (addMessage e content role st) = isLoading st
    /\ userSettings (addMessage e content role st) = userSettings st.
Proof.
  intros e content role st. unfold addMessage.
  destruct (falsyRef (currentSessionId st)); simpl.
  - split; [intros _; repeat split|].
    split; [discriminate | repeat split].
  - split; [discriminate|]. split; [|repeat split].
    intros _. split; [reflexivity|]. split.
    + rewrite map_map. apply map_ext. intro s.
      now destruct (idIs (currentSessionId st) (Session.id s)).
    + intros s Hin Hs. apply in_map_iff. exists s. now rewrite Hs.
Qed.

Lemma addMessage_autocreate_witness :
  sessions (addMessage (mkSessionEnv "s1" "m1" 5 5 5) "oi" user initialState)
  = [Session.mk "s1" "Nova conversa" "Conversa iniciada automaticamente"
       [Message.mk "m1" user "oi" 5] 5 5]
  /\ currentSessionId (addMessage (mkSessionEnv "s1" "m1" 5 5 5) "oi" user initialState)
     = Some "s1".
Proof.
  destruct (addMessage_autocreate (mkSessionEnv "s1" "m1" 5 5 5) "oi" user initialState)
    as [H _].
  destruct (H eq_refl) as (Hs & _ & _ & Hc).
  split; [rewrite Hs; reflexivity | rewrite Hc; reflexivity].
Defined.

(** ** The pattern of the learning request *)

Lemma lowerChar_idem : forall c, Js.lowerChar (Js.lowerChar c) = Js.lowerChar c.
Proof. intros [[] [] [] [] [] [] [] []]; reflexivity. Qed.

(** A literal found at the head of the lowered text is matched there by the
    case-insensitive pattern. *)
Lemma startsWith_matchLiteralCI :
  forall a s, Js.startsWith a (Js.toLowerCase s) = true ->
              exists rest, Js.matchLiteralCI a s = Some rest.
Proof.
  induction a as [|x a IH]; intros s H.
  - exists s. now destruct s.
  - destruct s as [|y s]; simpl in H; [discriminate|].
    destruct (Ascii.eqb x (Js.lowerChar y)) eqn:E; [|discriminate].
    apply Ascii.eqb_eq in E. subst x.
    destruct (IH s H) as [rest Hrest]. exists rest. simpl.
    now rewrite lowerChar_idem, Ascii.eqb_refl.
Qed.

(** What a match of one literal consumes is the literal, up to case. *)
Lemma matchLiteralCI_sound :
  forall a s rest, Js.matchLiteralCI a s = Some rest ->
    exists t, s = t ++ rest /\ Js.toLowerCase t = Js.toLowerCase a.
Proof.
  induction a as [|x a IH]; intros s rest H.
  - exists EmptyString. destruct s; simpl in H; inversion H; now split.
  - destruct s as [|y s]; simpl in H; [discriminate|].
    destruct (Ascii.eqb (Js.lowerChar x) (Js.lowerChar y)) eqn:E; [|discriminate].
    apply Ascii.eqb_eq in E. destruct (IH s rest H) as [t [Hs Ht]].
    exists (String y t). simpl. split; [now rewrite Hs | now rewrite Ht, E].
Qed.

Lemma matchAltCI_sound :
  forall alts s rest, Js.matchAltCI alts s = Some rest ->
    exists a t, In a alts /\ s = t ++ rest /\ Js.toLowerCase t = Js.toLowerCase a.
Proof.
  induction alts as [|a alts IH]; intros s rest H; simpl in H; [discriminate|].
  destruct (Js.matchLiteralCI a s) as [r|] eqn:E.
  - inversion H; subst r. destruct (matchLiteralCI_sound a s rest E) as [t [Hs Ht]].
    exists a, t. simpl. auto.
  - destruct (IH s rest H) as [b [t [Hin [Hs Ht]]]].
    exists b, t. simpl. auto.
Qed.

Lemma matchAltCI_none :
  forall alts s, Js.matchAltCI alts s = None ->
    forall a, In a alts -> Js.matchLiteralCI a s = None.
Proof.
  induction alts as [|b alts IH]; intros s H a Hin; simpl in *; [contradiction|].
  destruct (Js.matchLiteralCI b s) eqn:E; [discriminate|].
  destruct Hin as [Hin|Hin]; [now subst b | now apply IH].
Qed.

(** When the lowered text includes one of the alternatives, the
    replacement removes one stretch of the text that is an alternative up
    to case, and keeps what is before and after it. *)
Lemma replaceFirstCI_removes :
  forall alts s a,
    In a alts -> Js.includes a (Js.toLowerCase s) = true ->
    exists pre t post b,
      s = pre ++ t ++ post
      /\ In b alts
      /\ Js.toLowerCase t = Js.toLowerCase b
      /\ Js.replaceFirstCI alts s = pre ++ post.
Proof.
  intros alts s a Hin. induction s as [|c s IH]; intros Hinc.
  - simpl in Hinc. destruct (startsWith_matchLiteralCI a EmptyString Hinc) as [r Hr].
    destruct (Js.matchAltCI alts EmptyString) as [rest|] eqn:E.
    + destruct (matchAltCI_sound alts EmptyString rest E) as [b [t [Hb [Hs Ht]]]].
      exists EmptyString, t, rest, b. simpl. rewrite E. auto.
    + rewrite (matchAltCI_none alts EmptyString E a Hin) in Hr. discriminate.
  - destruct (Js.matchAltCI alts (String c s)) as [rest|] eqn:E.
    + destruct (matchAltCI_sound alts (String c s) rest E) as [b [t [Hb [Hs Ht]]]].
      exists EmptyString, t, rest, b.
      unfold Js.replaceFirstCI; fold Js.replaceFirstCI. rewrite E. simpl. auto.
    + simpl in Hinc. apply orb_true_iff in Hinc. destruct Hinc as [Hst|Hinc].
      * destruct (startsWith_matchLiteralCI a (String c s) Hst) as [r Hr].
        rewrite (matchAltCI_none alts (String c s) E a Hin) in Hr. discriminate.
      * destruct (IH Hinc) as [pre [t [post [b (Hs & Hb & Ht & Hrep)]]]].
        exists (String c pre), t, post, b.
        unfold Js.replaceFirstCI; fold Js.replaceFirstCI. rewrite E.
        simpl. rewrite Hrep. rewrite Hs at 1. auto.
Qed.

(** The content kept by a learning request: the input without one
    occurrence of a trigger phrase, trimmed. *)
Lemma learnContent_removes :
  forall userInput, isLearningRequest userInput = true ->
    exists pre t post trigger,
      userInput = pre ++ t ++ post
      /\ In trigger learnPattern
      /\ Js.toLowerCase t = trigger
      /\ learnContent userInput = Js.trim (pre ++ post).
Proof.
  intros u H. unfold isLearningRequest in H. apply orb_true_iff in H.
  assert (K : exists a, In a learnPattern /\ Js.includes a (Js.toLowerCase u) = true).
  { destruct H as [H|H]; [exists "aprenda isso" | exists "guarde isso"];
      simpl; auto. }
  destruct K as [a [Hin Hinc]].
  destruct (replaceFirstCI_removes learnPattern u a Hin Hinc)
    as [pre [t [post [b (Hs & Hb & Ht & Hrep)]]]].
  exists pre, t, post, b. unfold learnContent. rewrite Hrep.
  repeat split; try assumption.
  rewrite Ht. simpl in Hb. destruct Hb as [Hb|[Hb|[]]]; subst b; reflexivity.
Qed.

Lemma matchLiteralCI_self :
  forall a r, Js.matchLiteralCI (Js.toLowerCase a) (a ++ r) = Some r.
Proof.
  induction a as [|x a IH]; intro r; simpl.
  - now destruct r.
  - now rewrite lowerChar_idem, Ascii.eqb_refl.
Qed.

(** A trigger phrase at the head of the input is what the replacement
    removes. *)
Lemma learnContent_leading :
  forall t rest trigger,
    In trigger learnPattern -> Js.toLowerCase t = trigger ->
    learnContent (t ++ rest) = Js.trim rest.
Proof.
  intros t rest trigger Hin Ht. unfold learnContent. f_equal.
  assert (Hm : Js.matchLiteralCI trigger (t ++ rest) = Some rest).
  { rewrite <- Ht. apply matchLiteralCI_self. }
  assert (Ha : Js.matchAltCI learnPattern (t ++ rest) = Some rest).
  { simpl in Hin. destruct Hin as [Hin|[Hin|[]]]; subst trigger.
    - unfold learnPattern, Js.matchAltCI. now rewrite Hm.
    - unfold learnPattern, Js.matchAltCI. rewrite Hm.
      destruct t as [|y t]; simpl in Ht; [discriminate|].
      inversion Ht as [[Hy Ht0]]. simpl. rewrite Hy. reflexivity. }
  destruct (t ++ rest) eqn:E;
    unfold Js.replaceFirstCI; fold Js.replaceFirstCI; now rewrite Ha.
Qed.

Lemma toLowerCase_app :
  forall u v, Js.toLowerCase (u ++ v) = Js.toLowerCase u ++ Js.toLowerCase v.
Proof. induction u as [|c u IH]; intro v; simpl; [|rewrite IH]; reflexivity. Qed.

Lemma startsWith_app :
  forall p x, Js.startsWith p (p ++ x) = true.
Proof.
  induction p as [|c p IH]; intro x; simpl; [reflexivity|].
  now rewrite Ascii.eqb_refl.
Qed.

Lemma includes_startsWith :
  forall p s, Js.startsWith p s = true -> Js.includes p s = true.
Proof. intros p [|c s] H; simpl; [exact H | now rewrite H]. Qed.

(** A text that begins with a trigger phrase, in any letter case, is a
    learning request. *)
Lemma isLearningRequest_leading :
  forall t rest trigger,
    In trigger learnPattern -> Js.toLowerCase t = trigger ->
    isLearningRequest (t ++ rest) = true.
Proof.
  intros t rest trigger Hin Ht. unfold isLearningRequest.
  rewrite toLowerCase_app, Ht.
  simpl in Hin. destruct Hin as [Hin|[Hin|[]]]; subst trigger.
  - now rewrite (includes_startsWith _ _
                   (startsWith_app "aprenda isso" (Js.toLowerCase rest))).
  - rewrite (includes_startsWith _ _
               (startsWith_app "guarde isso" (Js.toLowerCase rest))).
    apply orb_true_r.
Qed.

(** ** The submit handler *)

Lemma refOk_cases :
  forall st, refOk st = true ->
    currentSessionId st = None
    \/ exists sid s, currentSessionId st = Some sid
                     /\ Js.truthy sid = true
                     /\ findSession (Some sid) (sessions st) = Some s.
Proof.
  intros st H. unfold refOk in H.
  destruct (currentSessionId st) as [r|] eqn:E; [right | now left].
  apply andb_true_iff in H. destruct H as [Ht Hex].
  apply existsb_exists in Hex. destruct Hex as [s [Hin Hs]].
  destruct (find_exists _ (fun s0 => idIs (Some r) (Session.id s0)) (sessions st) s Hin Hs)
    as [s' Hs'].
  exists r, s'. auto.
Qed.

(** After [addMessage] on a well-formed store a session is current, and it
    holds the messages the current session had, followed by the new one. *)
Lemma addMessage_current :
  forall e content role st,
    refOk st = true -> Js.truthy (uuidSession e) = true ->
    exists sid s1,
      currentSessionId (addMessage e content role st) = Some sid
      /\ Js.truthy sid = true
      /\ findSession (Some sid) (sessions (addMessage e content role st)) = Some s1
      /\ Session.messages s1 = (currentMessages st ++ [newMessage e content role])%list.
Proof.
  intros e content role st Hok Hu.
  destruct (refOk_cases st Hok) as [Hnone | [sid [s (Hcur & Ht & Hfind)]]].
  - exists (uuidSession e), (autoSession e content role).
    unfold addMessage, currentMessages, findSession. rewrite Hnone. simpl.
    rewrite String.eqb_refl, find_never; auto.
  - destruct (addMessage_found e content role st sid s Hcur Ht Hfind) as [Hc Hf].
    exists sid, (withMessage e content role s).
    unfold currentMessages. rewrite Hcur, Hfind. auto.
Qed.

(** The learning branch only adds to the learning data. *)
Lemma learnStep_frame :
  forall env userInput st,
    sessions (learnStep env userInput st) = sessions st
    /\ currentSessionId (learnStep env userInput st) = currentSessionId st
    /\ exists added, learningData (learnStep env userInput st)
                     = (learningData st ++ added)%list.
Proof.
  intros env u st. unfold learnStep.
  destruct (isLearningRequest u); [destruct (Js.truthy (learnContent u))|]; simpl;
    repeat split; eauto; exists []; now rewrite app_nil_r.
Qed.

Lemma isLearningRequest_truthy :
  forall u, isLearningRequest u = true -> Js.truthy u = true.
Proof. intros [|c u] H; [discriminate | reflexivity]. Qed.

Section HandlerProperties.

Variable complete : list Message.t -> string -> option string.

(** C2, as the handler has it: the messages handed to the completion
    function are all the messages of the current session, in their order,
    followed by the incoming text; on a well-formed store these are the
    contents of every turn of the session once the incoming turn is
    appended, with no bound on their number. *)
Theorem handleSubmit_sends_whole_session :
  forall (env : SubmitEnv) (ui : ChatInput) (st : AppState),
    isSubmitting ui = false ->
    Js.truthy (Js.trim (inputValue ui)) = true ->
    refOk st = true ->
    Js.truthy (uuidSession (envUser env)) = true ->
    exists messages,
      request (handleSubmit complete env ui st)
      = Some (messages, UserSettings.preferredModel (userSettings st))
      /\ map Message.content messages
         = (map Message.content (currentMessages st) ++ [Js.trim (inputValue ui)])%list
      /\ map Message.content messages
         = map Message.content
             (currentMessages (addMessage (envUser env) (Js.trim (inputValue ui)) user st))
      /\ List.length messages = S (List.length (currentMessages st)).
Proof.
  intros env ui st Hsub Hin Hok Hu.
  exists (completionInput env st (Js.trim (inputValue ui))).
  split; [|split; [|split]].
  - unfold handleSubmit. rewrite Hsub, Hin. simpl.
    now destruct (complete _ _).
  - unfold completionInput. now rewrite map_app.
  - destruct (addMessage_current (envUser env) (Js.trim (inputValue ui)) user st Hok Hu)
      as [sid [s1 (Hc & _ & Hf & Hm)]].
    unfold currentMessages at 1. rewrite Hc, Hf, Hm.
    unfold completionInput. now rewrite !map_app.
  - unfold completionInput. rewrite length_app. simpl. lia.
Qed.

(** C3: when the completion function fails, the handler reports the error
    and leaves the store as the first two steps made it: the sessions are
    those left by the append of the user turn, which is the last turn of the
    current session, no further turn is added, and the learning data is what
    the learning branch left, with the artifact it created if it created
    one. *)
Theorem handleSubmit_failure_keeps_state :
  forall (env : SubmitEnv) (ui : ChatInput) (st : AppState),
    isSubmitting ui = false ->
    Js.truthy (Js.trim (inputValue ui)) = true ->
    complete (completionInput env st (Js.trim (inputValue ui)))
      (UserSettings.preferredModel (userSettings st)) = None ->
    let userInput := Js.trim (inputValue ui) in
    let result := handleSubmit complete env ui st in
    outcome result = ErrorToast
    /\ store result = learnStep env userInput (addMessage (envUser env) userInput user st)
    /\ sessions (store result) = sessions (addMessage (envUser env) userInput user st)
    /\ currentSessionId (store result)
       = currentSessionId (addMessage (envUser env) userInput user st)
    /\ (refOk st = true -> Js.truthy (uuidSession (envUser env)) = true ->
          exists s, findSession (currentSessionId (store result)) (sessions (store result))
                    = Some s
                    /\ Session.messages s
                       = (currentMessages st ++ [newMessage (envUser env) userInput user])%list)
    /\ (exists added, learningData (store result) = (learningData st ++ added)%list)
    /\ (isLearningRequest userInput = true -> Js.truthy (learnContent userInput) = true ->
          exists artifact,
            learningData (store result) = (learningData st ++ [artifact])%list
            /\ LearningSession.content artifact = learnContent userInput).
Proof.
  intros env ui st Hsub Hin Hfail userInput result.
  assert (Hstore : store result
                   = learnStep env userInput (addMessage (envUser env) userInput user st)).
  { unfold result, handleSubmit. rewrite Hsub, Hin. simpl.
    fold userInput. unfold userInput at 1. now rewrite Hfail. }
  destruct (learnStep_frame env userInput (addMessage (envUser env) userInput user st))
    as (Hs & Hc & Hl).
  split; [|split; [exact Hstore|]].
  { unfold result, handleSubmit. rewrite Hsub, Hin. simpl. now rewrite Hfail. }
  rewrite Hstore, Hs, Hc.
  split; [reflexivity|]. split; [reflexivity|]. split; [|split].
  - intros Hok Hu.
    destruct (addMessage_current (envUser env) userInput user st Hok Hu)
      as [sid [s1 (Hc1 & _ & Hf1 & Hm1)]].
    exists s1. rewrite Hc1. auto.
  - destruct Hl as [added Hl]. exists added.
    now rewrite Hl, addMessage_learningData.
  - intros Hreq Hcontent. unfold learnStep. rewrite Hreq, Hcontent.
    eexists. unfold addLearningSession, setLearningData.
    cbn [learningData]. rewrite addMessage_learningData.
    split; reflexivity.
Qed.

End HandlerProperties.

(** C1, as the handler has it: a submitted text that, once trimmed,
    begins with a trigger phrase, in any letter case, followed by a
    remainder that trimming does not empty, adds exactly one artifact to the
    learning data, whose content is that remainder trimmed, with whatever
    punctuation follows the phrase, whether or not the completion then
    succeeds; and on a well-formed store the current session holds the user
    turn with the trimmed text as submitted, trigger phrase included. *)
Theorem handleSubmit_learns :
  forall (complete : list Message.t -> string -> option string)
         (env : SubmitEnv) (ui : ChatInput) (st : AppState)
         (t rest trigger : string),
    isSubmitting ui = false ->
    Js.trim (inputValue ui) = t ++ rest ->
    In trigger learnPattern ->
    Js.toLowerCase t = trigger ->
    Js.truthy (Js.trim rest) = true ->
    refOk st = true ->
    Js.truthy (uuidSession (envUser env)) = true ->
    let result := handleSubmit complete env ui st in
    learningData (store result)
    = (learningData st ++
       [LearningSession.mk (uuidLearning (envLearning env))
          ("Aprendizado " ++ envLocaleDate env)
          "Conteúdo aprendido por comando direto"
          (Js.trim rest) None
          (learnCreated (envLearning env)) (learnUpdated (envLearning env))])%list
    /\ exists s turn,
         findSession (currentSessionId (store result)) (sessions (store result)) = Some s
         /\ In turn (Session.messages s)
         /\ Message.role turn = user
         /\ Message.content turn = t ++ rest.
Proof.
  intros complete env ui st t rest trigger Hsub Hsplit Htrig Ht Hrest Hok Hu result.
  set (userInput := Js.trim (inputValue ui)) in *.
  assert (Hreq : isLearningRequest userInput = true).
  { rewrite Hsplit. now apply (isLearningRequest_leading t rest trigger). }
  assert (Hcontent : learnContent userInput = Js.trim rest).
  { rewrite Hsplit. now apply (learnContent_leading t rest trigger). }
  pose proof (isLearningRequest_truthy _ Hreq) as Hin.
  destruct (addMessage_current (envUser env) userInput user st Hok Hu)
    as [sid [s1 (Hc1 & Ht1 & Hf1 & Hm1)]].
  destruct (learnStep_frame env userInput (addMessage (envUser env) userInput user st))
    as (Hs2 & Hc2 & _).
  assert (Hlearn : learningData
                     (learnStep env userInput (addMessage (envUser env) userInput user st))
                   = (learningData st ++
                      [LearningSession.mk (uuidLearning (envLearning env))
                         ("Aprendizado " ++ envLocaleDate env)
                         "Conteúdo aprendido por comando direto"
                         (Js.trim rest) None
                         (learnCreated (envLearning env))
                         (learnUpdated (envLearning env))])%list).
  { unfold learnStep. rewrite Hreq, Hcontent, Hrest.
    unfold addLearningSession, setLearningData. cbn [learningData].
    now rewrite addMessage_learningData. }
  assert (Huser : In (newMessage (envUser env) userInput user) (Session.messages s1)).
  { rewrite Hm1. apply in_or_app. right. now left. }
  split.
  - unfold result, handleSubmit. fold userInput. rewrite Hsub, Hin. cbn [negb orb].
    destruct (complete _ _); cbn [store].
    + now rewrite addMessage_learningData.
    + exact Hlearn.
  - unfold result, handleSubmit. fold userInput. rewrite Hsub, Hin. cbn [negb orb].
    destruct (complete _ _) as [response|]; cbn [store].
    + rewrite <- Hc2 in Hc1. rewrite <- Hs2 in Hf1.
      destruct (addMessage_found (envAssistant env) response assistant _ sid s1
                  Hc1 Ht1 Hf1) as [Hc3 Hf3].
      exists (withMessage (envAssistant env) response assistant s1),
             (newMessage (envUser env) userInput user).
      rewrite Hc3. split; [exact Hf3|]. split.
      * cbn [withMessage Session.messages]. apply in_or_app. now left.
      * split; [reflexivity | exact Hsplit].
    + exists s1, (newMessage (envUser env) userInput user).
      rewrite Hc2, Hs2, Hc1. repeat split; try assumption.
Qed.

(** ** The handler on concrete runs *)

Lemma handleSubmit_learns_witness :
  let result := handleSubmit (fun _ _ => None) sampleEnv
                  (mkChatInput "  Aprenda isso: agua ferve a 100 graus " false)
                  initialState in
  learningData (store result)
  = [LearningSession.mk "k-1" "Aprendizado 02/11/2026"
       "Conteúdo aprendido por comando direto" ": agua ferve a 100 graus" None 11 11]
  /\ map (fun s => map Message.content (Session.messages s)) (sessions (store result))
     = [["Aprenda isso: agua ferve a 100 graus"]].
Proof.
  intro result.
  destruct (handleSubmit_learns (fun _ _ => None) sampleEnv
              (mkChatInput "  Aprenda isso: agua ferve a 100 graus " false)
              initialState "Aprenda isso" ": agua ferve a 100 graus" "aprenda isso"
              eq_refl eq_refl (or_introl eq_refl) eq_refl eq_refl eq_refl eq_refl)
    as [H _].
  split; [exact H | reflexivity].
Defined.

(** White space outside ASCII is trimmed like any other: after the phrase
    and a no-break space nothing is left to learn, and no artifact is
    stored. *)
Example handleSubmit_phrase_and_nbsp :
  Js.trim ("aprenda isso" ++ nbsp) = "aprenda isso"
  /\ learningData
       (store (handleSubmit (fun _ _ => None) sampleEnv
                 (mkChatInput ("aprenda isso" ++ nbsp) false) initialState))
     = [].
Proof. split; reflexivity. Qed.

(** C1 fails on its own example: with the trigger phrase in front of
    ": the sky is blue" the artifact keeps the colon, so its content is not
    "the sky is blue"; and the English phrase of the example is not a
    trigger of the handler at all. *)
Lemma handleSubmit_keeps_separator :
  map LearningSession.content
    (learningData
       (store (handleSubmit getChatCompletion sampleEnv
                 (mkChatInput "aprenda isso: the sky is blue" false) initialState)))
  = [": the sky is blue"]
  /\ map LearningSession.content
       (learningData
          (store (handleSubmit getChatCompletion sampleEnv
                    (mkChatInput "aprenda isso: the sky is blue" false) initialState)))
     <> ["the sky is blue"]
  /\ learningData
       (store (handleSubmit getChatCompletion sampleEnv
                 (mkChatInput "remember this: the sky is blue" false) initialState))
     = [].
Proof.
  split; [reflexivity|]. split; [|reflexivity].
  vm_compute. discriminate.
Qed.

Lemma handleSubmit_sends_whole_session_witness :
  let st := appendAll
              [mkAppendCall (mkSessionEnv "x1" "m1" 2 2 2) "hi" user;
               mkAppendCall (mkSessionEnv "x2" "m2" 3 3 3) "hello" assistant]
              (createNewSession (mkSessionEnv "s1" "m0" 1 1 1) "a" "first" initialState) in
  exists messages,
    request (handleSubmit getChatCompletion sampleEnv
               (mkChatInput "how are you" false) st)
    = Some (messages, "claude-haiku")
    /\ map Message.content messages = ["hi"; "hello"; "how are you"].
Proof.
  intro st.
  destruct (handleSubmit_sends_whole_session getChatCompletion sampleEnv
              (mkChatInput "how are you" false) st eq_refl eq_refl eq_refl eq_refl)
    as [messages (Hr & Hm & _)].
  exists messages. split; [exact Hr | exact Hm].
Defined.

(** C2 fails as stated: with the turns "hi" and "hello" in the session and
    "how are you" coming in, the completion function receives all three,
    "hi" included, where a window of two turns would hold the last two
    only. *)
Lemma handleSubmit_no_turn_limit :
  let st := appendAll
              [mkAppendCall (mkSessionEnv "x1" "m1" 2 2 2) "hi" user;
               mkAppendCall (mkSessionEnv "x2" "m2" 3 3 3) "hello" assistant]
              (createNewSession (mkSessionEnv "s1" "m0" 1 1 1) "a" "first" initialState) in
  let result := handleSubmit getChatCompletion sampleEnv
                  (mkChatInput "how are you" false) st in
  let turns := map Message.content
                 (currentMessages (addMessage (envUser sampleEnv) "how are you" user st)) in
  turns = ["hi"; "hello"; "how are you"]
  /\ spec_recentHistory 2 turns = ["hello"; "how are you"]
  /\ option_map (fun r => map Message.content (fst r)) (request result)
     = Some ["hi"; "hello"; "how are you"]
  /\ option_map (fun r => map Message.content (fst r)) (request result)
     <> Some (spec_recentHistory 2 turns).
Proof.
  intros st result turns.
  split; [reflexivity|]. split; [reflexivity|]. split; [reflexivity|].
  vm_compute. discriminate.
Qed.

Lemma handleSubmit_failure_keeps_state_witness :
  let st := updateUserSettings (mkSettingsUpdates None (Some "gpt-4") None None None)
              initialState in
  let result := handleSubmit getChatCompletion sampleEnv
                  (mkChatInput "qual a capital de Portugal?" false) st in
  outcome result = ErrorToast
  /\ map (fun s => Session.messages s) (sessions (store result))
     = [[Message.mk "m-user" user "qual a capital de Portugal?" 10]]
  /\ learningData (store result) = [].
Proof.
  intros st result.
  assert (Hfail : getChatCompletion
                    (completionInput sampleEnv st
                       (Js.trim (inputValue (mkChatInput "qual a capital de Portugal?" false))))
                    (UserSettings.preferredModel (userSettings st)) = None).
  { vm_compute. reflexivity. }
  destruct (handleSubmit_failure_keeps_state getChatCompletion sampleEnv
              (mkChatInput "qual a capital de Portugal?" false) st
              eq_refl eq_refl Hfail) as (Ho & Hs & _).
  split; [exact Ho|]. fold result in Hs. rewrite Hs. split; reflexivity.
Defined.

(** A failing completion after a learning request: the artifact and the
    user turn stay.  The mock never fails on a learning request, so the
    completion function here is one that always fails. *)
Example handleSubmit_failure_after_learning :
  let result := handleSubmit (fun _ _ => None) sampleEnv
                  (mkChatInput "guarde isso: a capital e Lisboa" false) initialState in
  outcome result = ErrorToast
  /\ map (fun s => Session.messages s) (sessions (store result))
     = [[Message.mk "m-user" user "guarde isso: a capital e Lisboa" 10]]
  /\ map LearningSession.content (learningData (store result))
     = [": a capital e Lisboa"].
Proof. repeat split. Qed.

(** * Further properties of the store *)

Lemma find_app_split :
  forall (A : Type) (p : A -> bool) (l l' : list A),
    find p (l ++ l')
    = match find p l with Some a => Some a | None => find p l' end.
Proof.
  intros A p l l'; induction l as [|a l IH]; simpl; [reflexivity|].
  now destruct (p a).
Qed.

Lemma find_head_of_filter :
  forall (A : Type) (p : A -> bool) (l : list A),
    find p l = hd_error (filter p l).
Proof.
  intros A p l; induction l as [|a l IH]; simpl; [reflexivity|].
  now destruct (p a).
Qed.

Lemma filter_twice :
  forall (A : Type) (p : A -> bool) (l : list A),
    filter p (filter p l) = filter p l.
Proof.
  intros A p l; induction l as [|a l IH]; simpl; [reflexivity|].
  destruct (p a) eqn:E; simpl; [rewrite E, IH|]; auto.
Qed.

Lemma hasSession_spec :
  forall sid st,
    hasSession sid st = true <-> In sid (map Session.id (sessions st)).
Proof.
  intros sid st. unfold hasSession. rewrite existsb_exists, in_map_iff.
  split; intros [s [H1 H2]]; exists s.
  - apply String.eqb_eq in H2. auto.
  - split; [exact H2 | now apply String.eqb_eq].
Qed.

Lemma hasSession_false :
  forall sid st,
    hasSession sid st = false ->
    forall s, In s (sessions st) -> String.eqb (Session.id s) sid = false.
Proof.
  intros sid st H s Hin. destruct (String.eqb (Session.id s) sid) eqn:E; [|reflexivity].
  rewrite <- H. symmetry. apply existsb_exists. now exists s.
Qed.

Lemma find_never_in :
  forall (A : Type) (p : A -> bool) (l : list A),
    (forall a, In a l -> p a = false) -> find p l = None.
Proof.
  intros A p l H. destruct (find p l) as [a|] eqn:E; [|reflexivity].
  apply find_some in E. destruct E as [Hin Hp]. rewrite (H a Hin) in Hp. discriminate.
Qed.

(** ** Creating a session *)

(** X1: a session created under an id that no session of the store has
    goes to the end of the list with no messages, is the one the
    current-session reference then finds, and the sessions that were there
    stay in place, unchanged. *)
Theorem createNewSession_current :
  forall (e : SessionEnv) (name description : string) (st : AppState),
    hasSession (uuidSession e) st = false ->
    findSession (currentSessionId (createNewSession e name description st))
      (sessions (createNewSession e name description st))
    = Some (Session.mk (uuidSession e) name description [] (dateCreated e) (dateUpdated e))
    /\ currentMessages (createNewSession e name description st) = []
    /\ firstn (List.length (sessions st))
         (sessions (createNewSession e name description st)) = sessions st
    /\ List.length (sessions (createNewSession e name description st))
       = S (List.length (sessions st))
    /\ learningData (createNewSession e name description st) = learningData st.
Proof.
  intros e name description st Hfresh.
  assert (Hfind : findSession (currentSessionId (createNewSession e name description st))
                    (sessions (createNewSession e name description st))
                  = Some (Session.mk (uuidSession e) name description []
                            (dateCreated e) (dateUpdated e))).
  { unfold findSession, createNewSession. simpl. rewrite find_app_split.
    rewrite find_never_in.
    - simpl. now rewrite String.eqb_refl.
    - intros s Hin. now apply hasSession_false with (st := st). }
  split; [exact Hfind|]. split; [|split; [|split]].
  - unfold currentMessages. now rewrite Hfind.
  - unfold createNewSession. simpl.
    rewrite firstn_app, Nat.sub_diag, firstn_all. simpl. apply app_nil_r.
  - unfold createNewSession. simpl. rewrite length_app. simpl. lia.
  - reflexivity.
Qed.

Lemma createNewSession_current_witness :
  let st := createNewSession (mkSessionEnv "s1" "m1" 1 1 1) "a" "first" initialState in
  findSession (currentSessionId (createNewSession (mkSessionEnv "s2" "m2" 2 2 2) "b" "second" st))
    (sessions (createNewSession (mkSessionEnv "s2" "m2" 2 2 2) "b" "second" st))
  = Some (Session.mk "s2" "b" "second" [] 2 2).
Proof.
  intro st.
  destruct (createNewSession_current (mkSessionEnv "s2" "m2" 2 2 2) "b" "second" st eq_refl)
    as [H _].
  exact H.
Defined.

(** ** Deleting a session, again *)

Lemma deleteSession_leaves_other_ref :
  forall sid st, idIs (currentSessionId (deleteSession sid st)) sid = false.
Proof.
  intros sid st. apply idIs_false. unfold deleteSession; simpl.
  destruct (idIs (currentSessionId st) sid) eqn:Hid.
  - destruct (Nat.ltb 1 (List.length (sessions st))); [|discriminate].
    destruct (find _ (sessions st)) as [s'|] eqn:Hs'; [|discriminate].
    simpl. destruct (Js.truthy (Session.id s')); [|discriminate].
    apply find_some in Hs'. destruct Hs' as [_ Hs'].
    apply negb_true_iff, String.eqb_neq in Hs'. congruence.
  - now apply idIs_false.
Qed.

(** X2: after [deleteSession] no session of the store has the deleted id
    and the current-session reference is not that id; deleting the same id
    again changes nothing; and deleting an id that no session has and that is
    not current returns the store as it was. *)
Theorem deleteSession_idempotent :
  forall (sid : string) (st : AppState),
    hasSession sid (deleteSession sid st) = false
    /\ currentSessionId (deleteSession sid st) <> Some sid
    /\ deleteSession sid (deleteSession sid st) = deleteSession sid st
    /\ (hasSession sid st = false -> currentSessionId st <> Some sid ->
          deleteSession sid st = st).
Proof.
  intros sid st. split; [|split; [|split]].
  - destruct (hasSession sid (deleteSession sid st)) eqn:E; [|reflexivity].
    apply existsb_exists in E. destruct E as [s [Hin Hs]].
    unfold deleteSession in Hin; simpl in Hin. apply filter_In in Hin.
    destruct Hin as [_ Hne]. rewrite Hs in Hne. discriminate.
  - apply idIs_false, deleteSession_leaves_other_ref.
  - pose proof (deleteSession_leaves_other_ref sid st) as Hne.
    set (D := deleteSession sid st) in *.
    unfold deleteSession. rewrite Hne.
    subst D. unfold deleteSession. simpl. now rewrite filter_twice.
  - intros Habs Hcur. apply idIs_false in Hcur.
    unfold deleteSession. rewrite Hcur.
    replace (filter _ (sessions st)) with (sessions st); [now destruct st|].
    symmetry. apply forallb_filter_id. apply forallb_forall. intros s Hin.
    now rewrite (hasSession_false sid st Habs s Hin).
Qed.

(** X3: when the current session is deleted, the session that becomes
    current is the first of the sessions that remain, in the order of the
    list, and none is current when none remains. *)
Theorem deleteSession_selects_first :
  forall (sid : string) (st : AppState),
    currentSessionId st = Some sid ->
    hasSession sid st = true ->
    (forall s, In s (sessions st) -> Js.truthy (Session.id s) = true) ->
    currentSessionId (deleteSession sid st)
    = option_map Session.id (hd_error (sessions (deleteSession sid st))).
Proof.
  intros sid st Hcur Hhas Htruthy.
  apply idIs_true in Hcur. unfold deleteSession; simpl. rewrite Hcur.
  destruct (Nat.ltb 1 (List.length (sessions st))) eqn:Hlen.
  - rewrite find_head_of_filter.
    destruct (hd_error (filter _ (sessions st))) as [s'|] eqn:Hhd; [|reflexivity].
    simpl. rewrite Htruthy; [reflexivity|].
    rewrite <- find_head_of_filter in Hhd. now apply find_some in Hhd.
  - apply Nat.ltb_ge in Hlen. apply existsb_exists in Hhas.
    destruct Hhas as [s [Hin Hs]].
    destruct (sessions st) as [|a [|b l]]; simpl in *; [contradiction| |lia].
    destruct Hin as [Hin|[]]. subst a. now rewrite Hs.
Qed.

Lemma deleteSession_selects_first_witness :
  let st := setCurrentSession "s1"
              (createNewSession (mkSessionEnv "s3" "m3" 3 3 3) "c" "third"
                 (createNewSession (mkSessionEnv "s2" "m2" 2 2 2) "b" "second"
                    (createNewSession (mkSessionEnv "s1" "m1" 1 1 1) "a" "first"
                       initialState))) in
  currentSessionId (deleteSession "s1" st) = Some "s2".
Proof.
  intro st.
  assert (Ht : forall s, In s (sessions st) -> Js.truthy (Session.id s) = true).
  { intros s Hs. simpl in Hs. destruct Hs as [Hs|[Hs|[Hs|[]]]]; subst s; reflexivity. }
  rewrite (deleteSession_selects_first "s1" st eq_refl eq_refl Ht). reflexivity.
Defined.

(** ** Appending under a reference that names no session *)

(** X4: when the current-session reference is set but no session has that
    id, [addMessage] records the message nowhere and starts no session: the
    store is returned as it was; so a text submitted in that state, and the
    reply to it, reach no session. *)
Theorem addMessage_dangling_drops :
  forall (complete : list Message.t -> string -> option string)
         (e : SessionEnv) (content : string) (role : Role)
         (env : SubmitEnv) (ui : ChatInput) (st : AppState) (r : string),
    currentSessionId st = Some r ->
    Js.truthy r = true ->
    hasSession r st = false ->
    addMessage e content role st = st
    /\ sessions (store (handleSubmit complete env ui st)) = sessions st
    /\ currentSessionId (store (handleSubmit complete env ui st)) = Some r.
Proof.
  intros complete e content role env ui st r Hcur Ht Habs.
  assert (Hdrop : forall e' c' r', addMessage e' c' r' st = st).
  { intros e' c' r'. unfold addMessage. rewrite Hcur, (falsyRef_Some r Ht).
    rewrite map_untouched; [apply setSessions_same|].
    intros s Hin. simpl. now apply hasSession_false with (st := st). }
  split; [apply Hdrop|].
  unfold handleSubmit.
  destruct (negb (Js.truthy (Js.trim (inputValue ui))) || isSubmitting ui);
    [now split|].
  cbv zeta. rewrite Hdrop.
  destruct (learnStep_frame env (Js.trim (inputValue ui)) st) as (Hs & Hc & _).
  destruct (complete _ _) as [response|]; cbn [store].
  - assert (Hdrop2 : addMessage (envAssistant env) response assistant
                       (learnStep env (Js.trim (inputValue ui)) st)
                     = learnStep env (Js.trim (inputValue ui)) st).
    { unfold addMessage. rewrite Hc, Hs, Hcur, (falsyRef_Some r Ht).
      rewrite map_untouched.
      - rewrite <- Hs. apply setSessions_same.
      - intros s Hin. simpl. now apply hasSession_false with (st := st). }
    rewrite Hdrop2, Hs, Hc. now split.
  - rewrite Hs, Hc. now split.
Qed.

Lemma addMessage_dangling_drops_witness :
  let st := setCurrentSession "ghost"
              (createNewSession (mkSessionEnv "s1" "m1" 1 1 1) "a" "first" initialState) in
  addMessage (mkSessionEnv "s9" "m9" 9 9 9) "oi" user st = st
  /\ sessions (store (handleSubmit getChatCompletion sampleEnv
                        (mkChatInput "oi" false) st)) = sessions st
  /\ currentSessionId (store (handleSubmit getChatCompletion sampleEnv
                                (mkChatInput "oi" false) st)) = Some "ghost".
Proof.
  intro st.
  apply (addMessage_dangling_drops getChatCompletion (mkSessionEnv "s9" "m9" 9 9 9)
           "oi" user sampleEnv (mkChatInput "oi" false) st "ghost");
    reflexivity.
Defined.

(** ** Renaming a session *)

(** X5: [renameSession] gives the session of the given id the new name
    and the clock reading of the call, and keeps its id, messages and
    creation date; a description that is given and not empty replaces the
    old one, while a description that is left out or empty leaves the old
    one in place; sessions of another id, the order of the list and the
    current-session reference are untouched, and an id that no session has
    leaves the store as it was. *)
Theorem renameSession_renames :
  forall (now : Date) (sid name : string) (description : option string)
         (st : AppState),
    (forall s, In s (sessions st) -> Session.id s = sid ->
       exists s',
         In s' (sessions (renameSession now sid name description st))
         /\ Session.id s' = sid
         /\ Session.name s' = name
         /\ Session.messages s' = Session.messages s
         /\ Session.createdAt s' = Session.createdAt s
         /\ Session.updatedAt s' = now
         /\ (forall d, description = Some d -> Js.truthy d = true ->
               Session.description s' = d)
         /\ (description = None \/ description = Some EmptyString ->
               Session.description s' = Session.description s))
    /\ (forall s, In s (sessions st) -> Session.id s <> sid ->
          In s (sessions (renameSession now sid name description st)))
    /\ map Session.id (sessions (renameSession now sid name description st))
       = map Session.id (sessions st)
    /\ map Session.messages (sessions (renameSession now sid name description st))
       = map Session.messages (sessions st)
    /\ currentSessionId (renameSession now sid name description st)
       = currentSessionId st
    /\ (hasSession sid st = false ->
          renameSession now sid name description st = st).
Proof.
  intros now sid name description st. unfold renameSession.
  split; [|split; [|split; [|split; [|split]]]].
  - intros s Hin Hid. eexists. split.
    + simpl. apply in_map_iff. exists s. split; [|exact Hin].
      apply String.eqb_eq in Hid. rewrite Hid. reflexivity.
    + simpl. repeat split; try assumption.
      * intros d Hd Ht. subst description. simpl. now rewrite Ht.
      * intros [Hd|Hd]; subst description; reflexivity.
  - intros s Hin Hne. simpl. apply in_map_iff. exists s. split; [|exact Hin].
    apply String.eqb_neq in Hne. now rewrite Hne.
  - simpl. rewrite map_map. apply map_ext. intro s.
    now destruct (String.eqb (Session.id s) sid).
  - simpl. rewrite map_map. apply map_ext. intro s.
    now destruct (String.eqb (Session.id s) sid).
  - reflexivity.
  - intros Habs. rewrite map_untouched; [apply setSessions_same|].
    intros s Hin. now apply hasSession_false with (st := st).
Qed.

(** ** Deleting a learning artifact *)

(** X6: [deleteLearningSession] keeps exactly the artifacts of another id,
    in their order; it never fails: an id that no artifact has leaves the
    store as it was, and deleting twice is deleting once; sessions and the
    current-session reference are not touched. *)
Theorem deleteLearningSession_removes :
  forall (id : string) (st : AppState),
    (forall a, In a (learningData (deleteLearningSession id st))
               <-> In a (learningData st) /\ LearningSession.id a <> id)
    /\ deleteLearningSession id (deleteLearningSession id st)
       = deleteLearningSession id st
    /\ ((forall a, In a (learningData st) -> LearningSession.id a <> id) ->
          deleteLearningSession id st = st)
    /\ sessions (deleteLearningSession id st) = sessions st
    /\ currentSessionId (deleteLearningSession id st) = currentSessionId st.
Proof.
  intros id st. unfold deleteLearningSession.
  split; [|split; [|split; [|split]]]; try reflexivity.
  - intro a. simpl. rewrite filter_In, negb_true_iff, String.eqb_neq. tauto.
  - unfold setLearningData. simpl. now rewrite filter_twice.
  - intros Habs.
    replace (filter _ (learningData st)) with (learningData st);
      [apply setLearningData_same|].
    symmetry. apply forallb_filter_id. apply forallb_forall. intros a Hin.
    apply negb_true_iff, String.eqb_neq. now apply Habs.
Qed.

(** X7: an artifact added under an id that no artifact of the store has
    and then deleted by that id leaves the store exactly as it was before
    the two calls. *)
Theorem addLearningSession_then_delete :
  forall (e : LearningEnv) (name content description : string)
         (source : option string) (st : AppState),
    ~ In (uuidLearning e) (map LearningSession.id (learningData st)) ->
    deleteLearningSession (uuidLearning e)
      (addLearningSession e name content description source st)
    = st.
Proof.
  intros e name content description source st Hfresh.
  unfold deleteLearningSession, addLearningSession, setLearningData. simpl.
  rewrite filter_app. simpl. rewrite String.eqb_refl. simpl. rewrite app_nil_r.
  replace (filter _ (learningData st)) with (learningData st); [now destruct st|].
  symmetry. apply forallb_filter_id. apply forallb_forall. intros a Hin.
  apply negb_true_iff, String.eqb_neq. intro Heq. apply Hfresh.
  rewrite <- Heq. now apply in_map.
Qed.

Lemma addLearningSession_then_delete_witness :
  let st := addLearningSession (mkLearningEnv "k1" 1 1) "Fato" "o ceu e azul"
              "nota" None initialState in
  deleteLearningSession "k2"
    (addLearningSession (mkLearningEnv "k2" 2 2) "Outro" "a agua ferve" "nota"
       (Some "https://exemplo.com") st)
  = st.
Proof.
  intro st.
  apply (addLearningSession_then_delete (mkLearningEnv "k2" 2 2)).
  simpl. intros [H|[]]. discriminate.
Defined.

(** ** What every run of the store keeps *)

Lemma idsOk_same_ids :
  forall st st',
    map Session.id (sessions st') = map Session.id (sessions st) ->
    idsOk st -> idsOk st'.
Proof.
  intros st st' Hi [Hnd Ht]. split; [now rewrite Hi|].
  intros s' Hin. apply (in_map Session.id) in Hin. rewrite Hi in Hin.
  apply in_map_iff in Hin. destruct Hin as [s [Hs Hin]].
  rewrite <- Hs. now apply Ht.
Qed.

Lemma NoDup_map_filter :
  forall (A B : Type) (f : A -> B) (p : A -> bool) (l : list A),
    NoDup (map f l) -> NoDup (map f (filter p l)).
Proof.
  intros A B f p l; induction l as [|a l IH]; intro H; simpl; [constructor|].
  inversion H as [|x xs Hnotin Hnd]; subst.
  destruct (p a); simpl; [|now apply IH].
  constructor; [|now apply IH].
  intro Hin. apply Hnotin. apply in_map_iff in Hin. destruct Hin as [b [Hb Hin]].
  apply filter_In in Hin. rewrite <- Hb. apply in_map. tauto.
Qed.

Lemma freshId_spec :
  forall u st, freshId u st = true ->
    Js.truthy u = true /\ ~ In u (map Session.id (sessions st)).
Proof.
  intros u st H. unfold freshId in H. apply andb_true_iff in H.
  destruct H as [Ht Hn]. split; [exact Ht|].
  intro Hin. apply hasSession_spec in Hin. rewrite Hin in Hn. discriminate.
Qed.

(** One action called as the components call it keeps the store
    well-formed. *)
Lemma applyAction_wellFormed :
  forall a st,
    refOk st = true -> idsOk st -> callable a st = true ->
    refOk (applyAction a st) = true /\ idsOk (applyAction a st).
Proof.
  intros a st Hok Hids Hcall.
  destruct a as [e name description | sid | sid | now sid name description
                | e content role | now sid | e name content description source
                | id | now id updates | b | settings]; simpl in *.
  - destruct (freshId_spec _ _ Hcall) as [Ht Hfresh].
    split; [now apply createNewSession_refOk|].
    destruct Hids as [Hnd Hall]. unfold createNewSession. split; simpl.
    + rewrite map_app. simpl. apply NoDup_app; [exact Hnd | |].
      * repeat constructor. intros [].
      * intros x Hx [Hx'|[]]. subst x. contradiction.
    + intros s Hin. apply in_app_or in Hin. destruct Hin as [Hin|[Hin|[]]].
      * now apply Hall.
      * subst s. exact Ht.
  - split; [|exact Hids].
    unfold refOk, setCurrentSession. simpl. unfold hasSession in Hcall.
    rewrite Hcall, andb_true_r.
    apply existsb_exists in Hcall. destruct Hcall as [s [Hin Hs]].
    apply String.eqb_eq in Hs. subst sid. now apply Hids.
  - split; [now apply deleteSession_refOk|].
    destruct Hids as [Hnd Hall]. unfold deleteSession. split; simpl.
    + now apply NoDup_map_filter.
    + intros s Hin. apply filter_In in Hin. now apply Hall.
  - assert (Hi : map Session.id (sessions (renameSession now sid name description st))
                 = map Session.id (sessions st)).
    { unfold renameSession. simpl. rewrite map_map. apply map_ext. intro s.
      now destruct (String.eqb (Session.id s) sid). }
    split; [now apply (refOk_same_ids st) | now apply (idsOk_same_ids st)].
  - destruct (freshId_spec _ _ Hcall) as [Ht Hfresh].
    split; [now apply addMessage_refOk|].
    unfold addMessage. destruct (falsyRef (currentSessionId st)).
    + destruct Hids as [Hnd Hall]. split; simpl.
      * constructor; assumption.
      * intros s [Hin|Hin]; [subst s; exact Ht | now apply Hall].
    + apply (idsOk_same_ids st); [|exact Hids].
      simpl. rewrite map_map. apply map_ext. intro s.
      now destruct (idIs (currentSessionId st) (Session.id s)).
  - split; [now apply clearMessages_refOk|].
    apply (idsOk_same_ids st); [|exact Hids].
    unfold clearMessages. simpl. rewrite map_map. apply map_ext. intro s.
    now destruct (String.eqb (Session.id s) sid).
  - split; [exact Hok | exact Hids].
  - split; [exact Hok | exact Hids].
  - split; [exact Hok | exact Hids].
  - split; [exact Hok | exact Hids].
  - split; [exact Hok | exact Hids].
Qed.

(** X8: in every store reached by the store's actions, called as the
    components call them (each drawn session id is non-empty and new, and
    only a listed session is selected), the current-session reference is
    null or names a session of the store, and the session ids are non-empty
    and pairwise different. *)
Theorem runActions_wellFormed :
  forall (acts : list Action) (st : AppState),
    refOk st = true -> idsOk st -> callableRun acts st = true ->
    refOk (runActions acts st) = true /\ idsOk (runActions acts st).
Proof.
  induction acts as [|a acts IH]; intros st Hok Hids Hrun; simpl in *.
  - now split.
  - apply andb_true_iff in Hrun. destruct Hrun as [Hcall Hrest].
    destruct (applyAction_wellFormed a st Hok Hids Hcall) as [Hok' Hids'].
    now apply IH.
Qed.

Lemma runActions_wellFormed_witness :
  let acts := [ActAddMessage (mkSessionEnv "s1" "m1" 1 1 1) "oi" user;
               ActCreate (mkSessionEnv "s2" "m2" 2 2 2) "b" "second";
               ActSelect "s1";
               ActDelete "s1";
               ActClear 3 "s2";
               ActDelete "s2"] in
  refOk (runActions acts initialState) = true
  /\ idsOk (runActions acts initialState).
Proof.
  intro acts. apply (runActions_wellFormed acts initialState).
  - reflexivity.
  - split; [constructor | intros s []].
  - reflexivity.
Defined.

(** * Further properties of the handlers *)

(** ** The submit handler, again *)

(** What is left once the leading white space is dropped has no leading
    white space. *)
Lemma trimStart_fixed :
  forall n s, String.length s <= n -> Js.trimStart (Js.trimStart s) = Js.trimStart s.
Proof.
  induction n as [|n IH]; intros s Hlen.
  - destruct s; [reflexivity | simpl in Hlen; lia].
  - destruct s as [|a s1]; [reflexivity|]. simpl in Hlen.
    cbn [Js.trimStart].
    destruct (Js.isWhiteSpace a) eqn:Ea; [apply IH; lia|].
    destruct s1 as [|b s2].
    { cbn [Js.trimStart]. now rewrite Ea. }
    simpl in Hlen.
    destruct (Js.isWhiteSpace2 a b) eqn:Eb; [apply IH; lia|].
    destruct s2 as [|c s3].
    { cbn [Js.trimStart]. now rewrite Ea, Eb. }
    simpl in Hlen.
    destruct (Js.isWhiteSpace3 a b c) eqn:Ec; [apply IH; lia|].
    cbn [Js.trimStart]. now rewrite Ea, Eb, Ec.
Qed.

Lemma trimEnd_truthy :
  forall t, Js.trimStart t = t -> Js.truthy (Js.trimEnd t) = Js.truthy t.
Proof.
  intros [|a t1] H; [reflexivity|].
  change (Js.trimEnd (String a t1))
    with (match Js.trimStart (String a t1) with
          | EmptyString => EmptyString
          | String _ _ => String a (Js.trimEnd t1)
          end).
  now rewrite H.
Qed.

(** [trim] empties exactly the texts made of white space only. *)
Lemma trim_truthy :
  forall s, Js.truthy (Js.trim s) = negb (allWhiteSpace s).
Proof.
  intro s. unfold Js.trim, allWhiteSpace. rewrite negb_involutive.
  apply trimEnd_truthy. now apply (trimStart_fixed (String.length s)).
Qed.

(** X10: the handler does nothing at all — no message, no artifact, no
    call of the completion function, the input left as typed — exactly when
    the input is blank (empty or white space only) or a submission is in
    progress; in every other case it calls the completion function once. *)
Theorem handleSubmit_ignores_blank :
  forall (complete : list Message.t -> string -> option string)
         (env : SubmitEnv) (ui : ChatInput) (st : AppState),
    (request (handleSubmit complete env ui st) = None
     <-> allWhiteSpace (inputValue ui) = true \/ isSubmitting ui = true)
    /\ (allWhiteSpace (inputValue ui) = true \/ isSubmitting ui = true ->
          handleSubmit complete env ui st = mkSubmitResult st ui None Ignored).
Proof.
  intros complete env ui st. unfold handleSubmit. rewrite trim_truthy, negb_involutive.
  destruct (allWhiteSpace (inputValue ui)); cbn [orb].
  - split; [split; auto | reflexivity].
  - destruct (isSubmitting ui).
    + split; [split; auto | reflexivity].
    + split.
      * cbv zeta. destruct (complete _ _); simpl;
          (split; [discriminate | intros [H|H]; discriminate]).
      * intros [H|H]; discriminate.
Qed.

(** A text of white space outside ASCII is blank too: the handler returns
    at once on a no-break space. *)
Example handleSubmit_ignores_nbsp :
  handleSubmit (fun _ _ => None) sampleEnv (mkChatInput (nbsp ++ " " ++ nbsp) false)
    initialState
  = mkSubmitResult initialState (mkChatInput (nbsp ++ " " ++ nbsp) false) None Ignored.
Proof. reflexivity. Qed.

(** X11: when the completion function answers, the handler ends with the
    user turn and then the reply as the last two messages of the current
    session, after the messages that were there, and with the input emptied
    and the submission flag off. *)
Theorem handleSubmit_answered :
  forall (complete : list Message.t -> string -> option string)
         (env : SubmitEnv) (ui : ChatInput) (st : AppState) (response : string),
    isSubmitting ui = false ->
    allWhiteSpace (inputValue ui) = false ->
    refOk st = true ->
    Js.truthy (uuidSession (envUser env)) = true ->
    complete (completionInput env st (Js.trim (inputValue ui)))
      (UserSettings.preferredModel (userSettings st)) = Some response ->
    let result := handleSubmit complete env ui st in
    outcome result = Answered
    /\ chatInput result = mkChatInput EmptyString false
    /\ exists s,
         findSession (currentSessionId (store result)) (sessions (store result)) = Some s
         /\ Session.messages s
            = (currentMessages st ++
               [newMessage (envUser env) (Js.trim (inputValue ui)) user;
                newMessage (envAssistant env) response assistant])%list.
Proof.
  intros complete env ui st response Hsub Hblank Hok Hu Hresp result.
  assert (Hin : Js.truthy (Js.trim (inputValue ui)) = true)
    by now rewrite trim_truthy, Hblank.
  assert (Hres : result
                 = mkSubmitResult
                     (addMessage (envAssistant env) response assistant
                        (learnStep env (Js.trim (inputValue ui))
                           (addMessage (envUser env) (Js.trim (inputValue ui)) user st)))
                     (mkChatInput EmptyString false)
                     (Some (completionInput env st (Js.trim (inputValue ui)),
                            UserSettings.preferredModel (userSettings st)))
                     Answered).
  { unfold result, handleSubmit. rewrite Hsub, Hin. cbn [negb orb]. cbv zeta.
    now rewrite Hresp. }
  rewrite Hres. cbn [outcome chatInput store].
  split; [reflexivity|]. split; [reflexivity|].
  destruct (addMessage_current (envUser env) (Js.trim (inputValue ui)) user st Hok Hu)
    as [sid [s1 (Hc1 & Ht1 & Hf1 & Hm1)]].
  destruct (learnStep_frame env (Js.trim (inputValue ui))
              (addMessage (envUser env) (Js.trim (inputValue ui)) user st))
    as (Hs2 & Hc2 & _).
  rewrite <- Hc2 in Hc1. rewrite <- Hs2 in Hf1.
  destruct (addMessage_found (envAssistant env) response assistant _ sid s1 Hc1 Ht1 Hf1)
    as [Hc3 Hf3].
  exists (withMessage (envAssistant env) response assistant s1).
  rewrite Hc3. split; [exact Hf3|].
  cbn [withMessage Session.messages]. rewrite Hm1, <- app_assoc. reflexivity.
Qed.

Lemma handleSubmit_answered_witness :
  let st := appendAll
              [mkAppendCall (mkSessionEnv "x1" "m1" 2 2 2) "hi" user]
              (createNewSession (mkSessionEnv "s1" "m0" 1 1 1) "a" "first" initialState) in
  let result := handleSubmit getChatCompletion sampleEnv (mkChatInput " oi " false) st in
  outcome result = Answered
  /\ map (fun s => map Message.content (Session.messages s)) (sessions (store result))
     = [["hi"; "oi"; respostaSaudacao]].
Proof.
  intros st result.
  destruct (handleSubmit_answered getChatCompletion sampleEnv (mkChatInput " oi " false)
              st respostaSaudacao eq_refl eq_refl eq_refl eq_refl eq_refl) as [H _].
  split; [exact H | reflexivity].
Defined.

Lemma append_empty_r : forall s : string, s ++ EmptyString = s.
Proof. induction s as [|c s IH]; simpl; [|rewrite IH]; reflexivity. Qed.

(** X13: the handler leaves the learning data as it was when the text
    holds no trigger phrase, and also when the text is a trigger phrase and
    nothing else (in any letter case): a bare command stores no empty
    artifact. *)
Theorem handleSubmit_no_artifact :
  forall (complete : list Message.t -> string -> option string)
         (env : SubmitEnv) (ui : ChatInput) (st : AppState),
    isLearningRequest (Js.trim (inputValue ui)) = false
    \/ In (Js.toLowerCase (Js.trim (inputValue ui))) learnPattern ->
    learningData (store (handleSubmit complete env ui st)) = learningData st.
Proof.
  intros complete env ui st H.
  assert (Hstep : forall st0, learnStep env (Js.trim (inputValue ui)) st0 = st0).
  { intro st0. unfold learnStep. destruct H as [H|H]; [now rewrite H|].
    destruct (isLearningRequest (Js.trim (inputValue ui))); [|reflexivity].
    rewrite <- (append_empty_r (Js.trim (inputValue ui))).
    rewrite (learnContent_leading (Js.trim (inputValue ui)) EmptyString _ H eq_refl).
    reflexivity. }
  unfold handleSubmit.
  destruct (negb (Js.truthy (Js.trim (inputValue ui))) || isSubmitting ui);
    [reflexivity|].
  cbv zeta. rewrite Hstep.
  destruct (complete _ _); cbn [store]; now rewrite ?addMessage_learningData.
Qed.

Lemma handleSubmit_no_artifact_witness :
  learningData
    (store (handleSubmit getChatCompletion sampleEnv
              (mkChatInput "  Guarde ISSO  " false) initialState))
  = [].
Proof.
  apply (handleSubmit_no_artifact getChatCompletion sampleEnv
           (mkChatInput "  Guarde ISSO  " false) initialState).
  right. simpl. auto.
Defined.

Lemma currentMessages_cleared :
  forall now sid st,
    currentSessionId st = Some sid ->
    currentMessages (clearMessages now sid st) = [].
Proof.
  intros now sid st Hcur. unfold currentMessages, clearMessages, findSession.
  simpl. rewrite Hcur. rewrite find_map_same_test.
  - destruct (find _ (sessions st)) as [s|] eqn:E; [|reflexivity].
    apply find_some in E. destruct E as [_ E]. simpl in E. simpl. now rewrite E.
  - intro s. simpl.
    destruct (String.eqb (Session.id s) sid) eqn:E; simpl; now rewrite ?E.
Qed.

(** X14: after the current session is cleared, the next submission hands
    the completion function the incoming text alone: nothing of the history
    that was cleared is sent. *)
Theorem handleSubmit_after_clear :
  forall (complete : list Message.t -> string -> option string)
         (env : SubmitEnv) (ui : ChatInput) (now : Date) (sid : string)
         (st : AppState),
    currentSessionId st = Some sid ->
    isSubmitting ui = false ->
    allWhiteSpace (inputValue ui) = false ->
    request (handleSubmit complete env ui (clearMessages now sid st))
    = Some ([Message.mk "temp" user (Js.trim (inputValue ui)) (envTempDate env)],
            UserSettings.preferredModel (userSettings st)).
Proof.
  intros complete env ui now sid st Hcur Hsub Hblank.
  assert (Hin : Js.truthy (Js.trim (inputValue ui)) = true)
    by now rewrite trim_truthy, Hblank.
  unfold handleSubmit. rewrite Hsub, Hin. cbn [negb orb]. cbv zeta.
  unfold completionInput. rewrite (currentMessages_cleared now sid st Hcur).
  now destruct (complete _ _).
Qed.

Lemma handleSubmit_after_clear_witness :
  let st := appendAll
              [mkAppendCall (mkSessionEnv "x1" "m1" 2 2 2) "hi" user;
               mkAppendCall (mkSessionEnv "x2" "m2" 3 3 3) "hello" assistant]
              (createNewSession (mkSessionEnv "s1" "m0" 1 1 1) "a" "first" initialState) in
  request (handleSubmit getChatCompletion sampleEnv (mkChatInput "how are you" false)
             (clearMessages 5 "s1" st))
  = Some ([Message.mk "temp" user "how are you" 12], "claude-haiku").
Proof.
  intro st.
  exact (handleSubmit_after_clear getChatCompletion sampleEnv
           (mkChatInput "how are you" false) 5 "s1" st eq_refl eq_refl eq_refl).
Defined.

(** ** The web extraction *)

Section WebScrapeProperties.

Variable hostnameOf : string -> Result string.

(** X15: a URL that is not blank but is refused (it does not begin with
    "http", as any URL typed with a leading space, or it is no URL for the
    platform) stores no artifact and gets no reply, yet the request turn
    stays in the session: the store is the one left by the append of that
    turn; the toast carries the error text, the URL stays in the field, the
    dialog is closed and the submission flag is off. *)
Theorem handleWebScrape_refused :
  forall (env : ScrapeEnv) (ui : UrlDialog) (st : AppState),
    allWhiteSpace (url ui) = false ->
    Js.startsWith "http" (url ui) = false
    \/ (exists message, hostnameOf (url ui) = Thrown message) ->
    let result := handleWebScrape hostnameOf env ui st in
    scrStore result = addMessage (scrUser env) (pedidoDeAnalise (url ui)) user st
    /\ learningData (scrStore result) = learningData st
    /\ scrDialog result = mkUrlDialog (url ui) false false
    /\ (exists message, scrToast result = Some message)
    /\ (Js.startsWith "http" (url ui) = false ->
          scrToast result
          = Some "URL inválida. A URL deve começar com http:// ou https://")
    /\ (refOk st = true -> Js.truthy (uuidSession (scrUser env)) = true ->
          exists s,
            findSession (currentSessionId (scrStore result)) (sessions (scrStore result))
            = Some s
            /\ Session.messages s
               = (currentMessages st
                  ++ [newMessage (scrUser env) (pedidoDeAnalise (url ui)) user])%list).
Proof.
  intros env ui st Hblank Hbad result.
  assert (Hin : Js.truthy (Js.trim (url ui)) = true)
    by now rewrite trim_truthy, Hblank.
  assert (Hres : exists message,
             result = mkScrapeResult
                        (addMessage (scrUser env) (pedidoDeAnalise (url ui)) user st)
                        (mkUrlDialog (url ui) false false) (Some message)
             /\ (Js.startsWith "http" (url ui) = false ->
                   message = "URL inválida. A URL deve começar com http:// ou https://")).
  { unfold result, handleWebScrape, scrapeWebContent. rewrite Hin. cbn [negb].
    destruct (Js.startsWith "http" (url ui)) eqn:E; cbn [negb].
    - destruct Hbad as [Hbad|[message Hm]]; [discriminate|].
      rewrite Hm. exists message. split; [reflexivity | discriminate].
    - eexists. split; reflexivity. }
  destruct Hres as [message [Hres Hmsg]]. rewrite Hres. cbn [scrStore scrDialog scrToast].
  split; [reflexivity|]. split; [apply addMessage_learningData|].
  split; [reflexivity|]. split; [now exists message|]. split.
  - intro E. now rewrite (Hmsg E).
  - intros Hok Hu.
    destruct (addMessage_current (scrUser env) (pedidoDeAnalise (url ui)) user st Hok Hu)
      as [sid [s1 (Hc1 & _ & Hf1 & Hm1)]].
    exists s1. rewrite Hc1. now split.
Qed.

(** X16: a URL that begins with "http" and has a host name stores one
    artifact, named after the host, holding the extracted text, tagged as
    web extraction and carrying the URL as its source; the session gets the
    request turn and then the confirmation, the URL field is emptied and
    there is no toast. *)
Theorem handleWebScrape_stores :
  forall (env : ScrapeEnv) (ui : UrlDialog) (st : AppState) (host : string),
    allWhiteSpace (url ui) = false ->
    Js.startsWith "http" (url ui) = true ->
    hostnameOf (url ui) = Returned host ->
    let result := handleWebScrape hostnameOf env ui st in
    learningData (scrStore result)
    = (learningData st ++
       [LearningSession.mk (uuidLearning (scrLearning env)) ("Web: " ++ host)
          "Conteúdo extraído de scraping web" (conteudoExtraido (url ui))
          (Some (url ui))
          (learnCreated (scrLearning env)) (learnUpdated (scrLearning env))])%list
    /\ scrDialog result = mkUrlDialog EmptyString false false
    /\ scrToast result = None
    /\ (refOk st = true -> Js.truthy (uuidSession (scrUser env)) = true ->
          exists s,
            findSession (currentSessionId (scrStore result)) (sessions (scrStore result))
            = Some s
            /\ Session.messages s
               = (currentMessages st
                  ++ [newMessage (scrUser env) (pedidoDeAnalise (url ui)) user;
                      newMessage (scrAssistant env) (respostaExtraido (url ui))
                        assistant])%list).
Proof.
  intros env ui st host Hblank Hhttp Hhost result.
  assert (Hin : Js.truthy (Js.trim (url ui)) = true)
    by now rewrite trim_truthy, Hblank.
  set (st1 := addMessage (scrUser env) (pedidoDeAnalise (url ui)) user st).
  set (st2 := addLearningSession (scrLearning env) ("Web: " ++ host)
                (conteudoExtraido (url ui)) "Conteúdo extraído de scraping web"
                (Some (url ui)) st1).
  assert (Hres : result
                 = mkScrapeResult
                     (addMessage (scrAssistant env) (respostaExtraido (url ui))
                        assistant st2)
                     (mkUrlDialog EmptyString false false) None).
  { unfold result, handleWebScrape, scrapeWebContent.
    rewrite Hin, Hhttp. cbn [negb]. now rewrite Hhost. }
  rewrite Hres. cbn [scrStore scrDialog scrToast].
  split; [|split; [reflexivity|split; [reflexivity|]]].
  - rewrite addMessage_learningData. unfold st2, addLearningSession, setLearningData.
    cbn [learningData]. unfold st1. now rewrite addMessage_learningData.
  - intros Hok Hu.
    destruct (addMessage_current (scrUser env) (pedidoDeAnalise (url ui)) user st Hok Hu)
      as [sid [s1 (Hc1 & Ht1 & Hf1 & Hm1)]].
    fold st1 in Hc1, Hf1.
    assert (Hc2 : currentSessionId st2 = Some sid) by exact Hc1.
    assert (Hf2 : findSession (Some sid) (sessions st2) = Some s1) by exact Hf1.
    destruct (addMessage_found (scrAssistant env) (respostaExtraido (url ui)) assistant
                st2 sid s1 Hc2 Ht1 Hf2) as [Hc3 Hf3].
    exists (withMessage (scrAssistant env) (respostaExtraido (url ui)) assistant s1).
    rewrite Hc3. split; [exact Hf3|].
    cbn [withMessage Session.messages]. rewrite Hm1, <- app_assoc. reflexivity.
Qed.

End WebScrapeProperties.

Lemma handleWebScrape_refused_witness :
  let hostnameOf := fun u : string =>
                      if String.eqb u "https://exemplo.com/artigo"
                      then Returned "exemplo.com" else Thrown "Invalid URL" in
  let env := mkScrapeEnv (mkSessionEnv "s1" "m1" 1 1 1) (mkLearningEnv "k1" 2 2)
               (mkSessionEnv "s2" "m2" 3 3 3) in
  let result := handleWebScrape hostnameOf env
                  (mkUrlDialog " https://exemplo.com/artigo" true false) initialState in
  map (fun s => map Message.content (Session.messages s)) (sessions (scrStore result))
  = [["Analisar e aprender conteúdo de:  https://exemplo.com/artigo"]]
  /\ learningData (scrStore result) = []
  /\ scrToast result = Some "URL inválida. A URL deve começar com http:// ou https://".
Proof.
  intros hostnameOf env result.
  destruct (handleWebScrape_refused hostnameOf env
              (mkUrlDialog " https://exemplo.com/artigo" true false) initialState
              eq_refl (or_introl eq_refl)) as (Hs & Hl & _ & _ & Ht & _).
  fold result in Hs, Hl, Ht.
  split; [rewrite Hs; reflexivity|]. split; [exact Hl | exact (Ht eq_refl)].
Defined.

Lemma handleWebScrape_stores_witness :
  let hostnameOf := fun u : string =>
                      if String.eqb u "https://exemplo.com/artigo"
                      then Returned "exemplo.com" else Thrown "Invalid URL" in
  let env := mkScrapeEnv (mkSessionEnv "s1" "m1" 1 1 1) (mkLearningEnv "k1" 2 2)
               (mkSessionEnv "s2" "m2" 3 3 3) in
  let result := handleWebScrape hostnameOf env
                  (mkUrlDialog "https://exemplo.com/artigo" true false) initialState in
  learningData (scrStore result)
  = [LearningSession.mk "k1" "Web: exemplo.com" "Conteúdo extraído de scraping web"
       (conteudoExtraido "https://exemplo.com/artigo")
       (Some "https://exemplo.com/artigo") 2 2]
  /\ scrToast result = None.
Proof.
  intros hostnameOf env result.
  destruct (handleWebScrape_stores hostnameOf env
              (mkUrlDialog "https://exemplo.com/artigo" true false) initialState
              "exemplo.com" eq_refl eq_refl eq_refl) as (Hl & _ & Ht & _).
  split; [exact Hl | exact Ht].
Defined.

(** ** The sidebar *)

Lemma createNewSession_find_new :
  forall e name description st,
    hasSession (uuidSession e) st = false ->
    findSession (Some (uuidSession e))
      (sessions (createNewSession e name description st))
    = Some (Session.mk (uuidSession e) name description [] (dateCreated e) (dateUpdated e)).
Proof.
  intros e name description st Hfresh.
  unfold findSession, createNewSession. simpl. rewrite find_app_split.
  rewrite find_never_in.
  - simpl. now rewrite String.eqb_refl.
  - intros s Hin. now apply hasSession_false with (st := st).
Qed.

(** X17: the sidebar form creates no session from a blank name and then
    leaves the store and the form as they are; from any other name it
    creates the session under the name and description exactly as typed (not
    trimmed), makes it the current session, empties the form and closes the
    dialog. *)
Theorem handleCreateSession_guard :
  forall (e : SessionEnv) (form : SidebarForm) (st : AppState),
    (allWhiteSpace (newSessionName form) = true ->
       handleCreateSession e form st = (st, form))
    /\ (allWhiteSpace (newSessionName form) = false ->
          hasSession (uuidSession e) st = false ->
          snd (handleCreateSession e form st) = mkSidebarForm EmptyString EmptyString false
          /\ findSession (currentSessionId (fst (handleCreateSession e form st)))
               (sessions (fst (handleCreateSession e form st)))
             = Some (Session.mk (uuidSession e) (newSessionName form)
                       (newSessionDesc form) [] (dateCreated e) (dateUpdated e))
          /\ List.length (sessions (fst (handleCreateSession e form st)))
             = S (List.length (sessions st))).
Proof.
  intros e form st. unfold handleCreateSession. rewrite trim_truthy.
  destruct (allWhiteSpace (newSessionName form)); cbn [negb].
  - split; [reflexivity | discriminate].
  - split; [discriminate|]. intros _ Hfresh. cbn [fst snd].
    split; [reflexivity|]. split.
    + now apply createNewSession_find_new.
    + unfold createNewSession. simpl. rewrite length_app. simpl. lia.
Qed.

Lemma handleCreateSession_guard_witness :
  handleCreateSession (mkSessionEnv "s1" "m1" 1 1 1)
    (mkSidebarForm "   " "sem nome" true) initialState
  = (initialState, mkSidebarForm "   " "sem nome" true)
  /\ sessions (fst (handleCreateSession (mkSessionEnv "s1" "m1" 1 1 1)
                      (mkSidebarForm " Estudos " EmptyString true) initialState))
     = [Session.mk "s1" " Estudos " EmptyString [] 1 1].
Proof.
  split.
  - destruct (handleCreateSession_guard (mkSessionEnv "s1" "m1" 1 1 1)
                (mkSidebarForm "   " "sem nome" true) initialState) as [H _].
    exact (H eq_refl).
  - reflexivity.
Defined.

(** A name of no-break spaces is blank: nothing is created. *)
Example handleCreateSession_nbsp :
  handleCreateSession (mkSessionEnv "s1" "m1" 1 1 1)
    (mkSidebarForm (nbsp ++ nbsp) "sem nome" true) initialState
  = (initialState, mkSidebarForm (nbsp ++ nbsp) "sem nome" true).
Proof. reflexivity. Qed.
